(** * Bild-zu-Text OCR: the workflow controller of [src/App.tsx]

    The component keeps seven pieces of React state, two refs and talks to
    three asynchronous services: the Tesseract worker, the browser's object
    URL registry and the system clipboard.  The embedding below keeps the
    handlers as the source writes them, in a small state-and-exception monad
    over a [World] that holds the React state, the refs and the browser and
    engine side of every call the handlers make.

    An [async] function is cut at its [await]s: the part that runs when the
    handler is called, and one continuation per suspension point, which
    receives the settled value of the awaited promise.  A handler is a
    closure of the render that created it, so every handler that reads a
    state variable takes that render's state as its first argument. *)

From Stdlib Require Import Ascii String List Bool Arith QArith Lia.
Import ListNotations.
Local Open Scope nat_scope.
Local Open Scope string_scope.

(** ** Settled promises and thrown values *)

(** What a [catch (err)] clause inspects: [err instanceof Error] and
    [err.name]. *)
Record JsError := { instanceofError : bool; name : string }.

(** A promise once it has settled; an [await] on it resumes with the value
    or throws the reason. *)
Inductive Settled (A : Type) : Type :=
| Fulfilled (a : A)
| Rejected (err : JsError).
Arguments Fulfilled {A} a.
Arguments Rejected {A} err.

(** ** Data of the component *)

(** [type Stage = 'idle' | 'initializing' | 'recognizing' | 'done'] *)
Inductive Stage : Type := idle | initializing | recognizing | done.

Definition Stage_eqb (a b : Stage) : bool :=
  match a, b with
  | idle, idle | initializing, initializing
  | recognizing, recognizing | done, done => true
  | _, _ => false
  end.

(** A [File | Blob] payload: its name and its MIME type. *)
Record Blob := { blobName : string; blobType : string }.

(** The string [URL.createObjectURL] returns is opaque, never empty and
    different at every call; it is represented by its serial number. *)
Definition ObjectURL := nat.

Module Tesseract.

(** The worker object [Tesseract.createWorker] resolves to. *)
Definition Worker := nat.

Record LoggerMessage :=
  { status : string; progress : Q; jobId : string }.

Record RecognizeData := { text : string }.

Record RecognizeResult := { data : RecognizeData }.

End Tesseract.

(** The object kept by [useState({ status: '', progress: 0 })]. *)
Module Progress.

Record t := { status : string; progress : Q }.

End Progress.

(** The state variables of [App], in the order of their [useState] calls. *)
Record AppState := {
  image : option ObjectURL;
  text : string;
  error : option string;
  stage : Stage;
  progress : Progress.t;
  workerReady : bool;
  copyButtonText : string
}.

(** The hidden [<input type="file">] behind [inputRef]. *)
Record HTMLInputElement := { value : string; capture : option string }.

(** One entry of [navigator.clipboard.read()]: its [types] and what
    [getType] settles to. *)
Record ClipboardItem := {
  types : list string;
  getType : string -> Settled Blob
}.

(** [navigator.clipboard]: [None] when the property is undefined, otherwise
    whether it has a [read] method. *)
Record Clipboard := { hasRead : bool; written : list string }.

Record World := {
  (* React *)
  state : AppState;
  workerRef : option Tesseract.Worker;
  inputRef : option HTMLInputElement;
  (* browser *)
  objectURLs : list ObjectURL;      (* created and not yet revoked *)
  nextURL : ObjectURL;
  clipboard : option Clipboard;
  copyTimers : nat;                 (* setTimeout callbacks not yet run *)
  (* engine *)
  terminated : list Tesseract.Worker;
  (* suspended async functions *)
  pendingInit : bool;               (* initializeWorker at its awaits *)
  pendingReads : list AppState;     (* handlePaste at clipboard.read(), with its render *)
  pendingBlobs : list (AppState * Settled Blob);
                                    (* handlePaste at item.getType(), with its render
                                       and what the promise settles to *)
  inFlight : list (Tesseract.Worker * Blob)  (* processImage at recognize() *)
}.

(** JavaScript truthiness of a string. *)
Definition truthy (s : string) : bool := negb (s =? "").

(** ** The monad of handlers *)

Definition Js (A : Type) : Type := World -> World * Settled A.

Definition ret {A} (a : A) : Js A := fun w => (w, Fulfilled a).

Definition throw {A} (err : JsError) : Js A := fun w => (w, Rejected err).

Definition bind {A B} (m : Js A) (f : A -> Js B) : Js B :=
  fun w =>
    match m w with
    | (w', Fulfilled a) => f a w'
    | (w', Rejected err) => (w', Rejected err)
    end.

(** [try { body } catch (err) { handler }] *)
Definition try_catch {A} (body : Js A) (handler : JsError -> Js A) : Js A :=
  fun w =>
    match body w with
    | (w', Fulfilled a) => (w', Fulfilled a)
    | (w', Rejected err) => handler err w'
    end.

(** Resuming after [await p] once [p] has settled. *)
Definition await {A} (p : Settled A) : Js A := fun w => (w, p).

Definition skip : Js unit := ret tt.

Declare Scope js_scope.
Delimit Scope js_scope with js.
Notation "x <- m ;; k" := (bind m (fun x => k))
  (at level 61, m at next level, right associativity) : js_scope.
Notation "m ;; k" := (bind m (fun _ => k))
  (at level 61, right associativity) : js_scope.
Local Open Scope js_scope.

(** The world a handler leaves, and how it ended. *)
Definition exec {A} (m : Js A) (w : World) : World := fst (m w).
Definition outcome {A} (m : Js A) (w : World) : Settled A := snd (m w).

(** ** Primitive effects *)

Definition modify (f : World -> World) : Js unit := fun w => (f w, Fulfilled tt).

Definition withState (f : AppState -> AppState) (w : World) : World :=
  {| state := f (state w); workerRef := workerRef w; inputRef := inputRef w;
     objectURLs := objectURLs w; nextURL := nextURL w;
     clipboard := clipboard w; copyTimers := copyTimers w;
     terminated := terminated w; pendingInit := pendingInit w;
     pendingReads := pendingReads w; pendingBlobs := pendingBlobs w;
       inFlight := inFlight w |}.

Definition setImage (v : option ObjectURL) : Js unit :=
  modify (withState (fun s =>
    {| image := v; text := text s; error := error s; stage := stage s;
       progress := progress s; workerReady := workerReady s;
       copyButtonText := copyButtonText s |})).

Definition setText (v : string) : Js unit :=
  modify (withState (fun s =>
    {| image := image s; text := v; error := error s; stage := stage s;
       progress := progress s; workerReady := workerReady s;
       copyButtonText := copyButtonText s |})).

Definition setError (v : option string) : Js unit :=
  modify (withState (fun s =>
    {| image := image s; text := text s; error := v; stage := stage s;
       progress := progress s; workerReady := workerReady s;
       copyButtonText := copyButtonText s |})).

Definition setStage (v : Stage) : Js unit :=
  modify (withState (fun s =>
    {| image := image s; text := text s; error := error s; stage := v;
       progress := progress s; workerReady := workerReady s;
       copyButtonText := copyButtonText s |})).

Definition setProgress (v : Progress.t) : Js unit :=
  modify (withState (fun s =>
    {| image := image s; text := text s; error := error s; stage := stage s;
       progress := v; workerReady := workerReady s;
       copyButtonText := copyButtonText s |})).

Definition setWorkerReady (v : bool) : Js unit :=
  modify (withState (fun s =>
    {| image := image s; text := text s; error := error s; stage := stage s;
       progress := progress s; workerReady := v;
       copyButtonText := copyButtonText s |})).

Definition setCopyButtonText (v : string) : Js unit :=
  modify (withState (fun s =>
    {| image := image s; text := text s; error := error s; stage := stage s;
       progress := progress s; workerReady := workerReady s;
       copyButtonText := v |})).

(** [workerRef.current] and [inputRef.current] *)
Definition getWorkerRef : Js (option Tesseract.Worker) :=
  fun w => (w, Fulfilled (workerRef w)).

Definition setWorkerRef (v : option Tesseract.Worker) : Js unit :=
  modify (fun w =>
    {| state := state w; workerRef := v; inputRef := inputRef w;
       objectURLs := objectURLs w; nextURL := nextURL w;
       clipboard := clipboard w; copyTimers := copyTimers w;
       terminated := terminated w; pendingInit := pendingInit w;
       pendingReads := pendingReads w; pendingBlobs := pendingBlobs w;
       inFlight := inFlight w |}).

Definition getInputRef : Js (option HTMLInputElement) :=
  fun w => (w, Fulfilled (inputRef w)).

Definition setInputRef (v : option HTMLInputElement) : Js unit :=
  modify (fun w =>
    {| state := state w; workerRef := workerRef w; inputRef := v;
       objectURLs := objectURLs w; nextURL := nextURL w;
       clipboard := clipboard w; copyTimers := copyTimers w;
       terminated := terminated w; pendingInit := pendingInit w;
       pendingReads := pendingReads w; pendingBlobs := pendingBlobs w;
       inFlight := inFlight w |}).

(** [URL.createObjectURL] and [URL.revokeObjectURL] *)
Definition createObjectURL (payload : Blob) : Js ObjectURL :=
  fun w =>
    ({| state := state w; workerRef := workerRef w; inputRef := inputRef w;
        objectURLs := nextURL w :: objectURLs w; nextURL := S (nextURL w);
        clipboard := clipboard w; copyTimers := copyTimers w;
        terminated := terminated w; pendingInit := pendingInit w;
        pendingReads := pendingReads w; pendingBlobs := pendingBlobs w;
       inFlight := inFlight w |},
     Fulfilled (nextURL w)).

Definition revokeObjectURL (url : ObjectURL) : Js unit :=
  modify (fun w =>
    {| state := state w; workerRef := workerRef w; inputRef := inputRef w;
       objectURLs := remove Nat.eq_dec url (objectURLs w); nextURL := nextURL w;
       clipboard := clipboard w; copyTimers := copyTimers w;
       terminated := terminated w; pendingInit := pendingInit w;
       pendingReads := pendingReads w; pendingBlobs := pendingBlobs w;
       inFlight := inFlight w |}).

Definition setClipboard (v : option Clipboard) : Js unit :=
  modify (fun w =>
    {| state := state w; workerRef := workerRef w; inputRef := inputRef w;
       objectURLs := objectURLs w; nextURL := nextURL w;
       clipboard := v; copyTimers := copyTimers w;
       terminated := terminated w; pendingInit := pendingInit w;
       pendingReads := pendingReads w; pendingBlobs := pendingBlobs w;
       inFlight := inFlight w |}).

Definition setCopyTimers (v : nat) : Js unit :=
  modify (fun w =>
    {| state := state w; workerRef := workerRef w; inputRef := inputRef w;
       objectURLs := objectURLs w; nextURL := nextURL w;
       clipboard := clipboard w; copyTimers := v;
       terminated := terminated w; pendingInit := pendingInit w;
       pendingReads := pendingReads w; pendingBlobs := pendingBlobs w;
       inFlight := inFlight w |}).

(** [worker.terminate()] *)
Definition terminate (worker : Tesseract.Worker) : Js unit :=
  modify (fun w =>
    {| state := state w; workerRef := workerRef w; inputRef := inputRef w;
       objectURLs := objectURLs w; nextURL := nextURL w;
       clipboard := clipboard w; copyTimers := copyTimers w;
       terminated := worker :: terminated w; pendingInit := pendingInit w;
       pendingReads := pendingReads w; pendingBlobs := pendingBlobs w;
       inFlight := inFlight w |}).

Definition setPendingInit (v : bool) : Js unit :=
  modify (fun w =>
    {| state := state w; workerRef := workerRef w; inputRef := inputRef w;
       objectURLs := objectURLs w; nextURL := nextURL w;
       clipboard := clipboard w; copyTimers := copyTimers w;
       terminated := terminated w; pendingInit := v;
       pendingReads := pendingReads w; pendingBlobs := pendingBlobs w;
       inFlight := inFlight w |}).

Definition setPendingReads (v : list AppState) : Js unit :=
  modify (fun w =>
    {| state := state w; workerRef := workerRef w; inputRef := inputRef w;
       objectURLs := objectURLs w; nextURL := nextURL w;
       clipboard := clipboard w; copyTimers := copyTimers w;
       terminated := terminated w; pendingInit := pendingInit w;
       pendingReads := v; pendingBlobs := pendingBlobs w;
       inFlight := inFlight w |}).

Definition setInFlight (v : list (Tesseract.Worker * Blob)) : Js unit :=
  modify (fun w =>
    {| state := state w; workerRef := workerRef w; inputRef := inputRef w;
       objectURLs := objectURLs w; nextURL := nextURL w;
       clipboard := clipboard w; copyTimers := copyTimers w;
       terminated := terminated w; pendingInit := pendingInit w;
       pendingReads := pendingReads w; pendingBlobs := pendingBlobs w;
       inFlight := v |}).

Definition setPendingBlobs (v : list (AppState * Settled Blob)) : Js unit :=
  modify (fun w =>
    {| state := state w; workerRef := workerRef w; inputRef := inputRef w;
       objectURLs := objectURLs w; nextURL := nextURL w;
       clipboard := clipboard w; copyTimers := copyTimers w;
       terminated := terminated w; pendingInit := pendingInit w;
       pendingReads := pendingReads w; pendingBlobs := v;
       inFlight := inFlight w |}).

(** The list without its [n]-th element: a promise that has settled is no
    longer pending. *)
Definition dropNth {A : Type} (n : nat) (l : list A) : list A :=
  (firstn n l ++ skipn (S n) l)%list.

(** [worker.recognize(imageFile)]: the call is handed to the engine and the
    caller is suspended on its promise. *)
Definition recognize (worker : Tesseract.Worker) (imageFile : Blob) : Js unit :=
  fun w => setInFlight (inFlight w ++ [(worker, imageFile)]) w.

(** [navigator.clipboard.read()]: the caller, a closure of [render], is
    suspended on the promise. *)
Definition clipboardRead (render : AppState) : Js unit :=
  fun w => setPendingReads (pendingReads w ++ [render]) w.

(** [item.getType(imageType)]: the caller, a closure of [render], is
    suspended on the promise the call returned. *)
Definition getTypeCalled (render : AppState) (promise : Settled Blob) : Js unit :=
  fun w => setPendingBlobs (pendingBlobs w ++ [(render, promise)]) w.

Definition getClipboard : Js (option Clipboard) :=
  fun w => (w, Fulfilled (clipboard w)).

(** [navigator.clipboard.writeText(s)]; reading a property of [undefined]
    throws a [TypeError]. *)
Definition writeText (s : string) : Js unit :=
  nav <- getClipboard ;;
  match nav with
  | Some c => setClipboard (Some {| hasRead := hasRead c; written := written c ++ [s] |})
  | None => throw {| instanceofError := true; name := "TypeError" |}
  end.

(** [setTimeout(callback, 2000)] *)
Definition setTimeout : Js unit :=
  fun w => setCopyTimers (S (copyTimers w)) w.

(** ** The handlers of [App] *)

(** [updateProgress], the [logger] handed to [Tesseract.createWorker]. *)
Definition updateProgress (m : Tesseract.LoggerMessage) : Js unit :=
  setProgress {| Progress.status := Tesseract.status m;
                 Progress.progress := Tesseract.progress m |}.

(** [initializeWorker], up to [await Tesseract.createWorker(...)]. *)
Definition initializeWorker : Js unit :=
  setStage initializing ;;
  setPendingInit true.

(** [initializeWorker] from its first [await] on: [createWorker],
    [loadLanguage('deu')] and [initialize('deu')] have settled. *)
Definition initializeWorker_resumed
    (created : Settled Tesseract.Worker) (loaded initialized : Settled unit)
  : Js unit :=
  try_catch
    (worker <- await created ;;
     await loaded ;;
     await initialized ;;
     setWorkerRef (Some worker) ;;
     setWorkerReady true ;;
     setStage idle)
    (fun _ =>
       setError (Some "Tesseract.js konnte nicht initialisiert werden. Bitte laden Sie die Seite neu.") ;;
       setStage idle).

(** The function the effect returns, run when the component unmounts. *)
Definition cleanup : Js unit :=
  current <- getWorkerRef ;;
  match current with
  | Some worker => terminate worker
  | None => skip
  end ;;
  setWorkerRef None.

(** [processImage], up to [await workerRef.current.recognize(imageFile)].
    [image] is the state variable of the render the closure belongs to. *)
Definition processImage (render : AppState) (imageFile : Blob) : Js unit :=
  current <- getWorkerRef ;;
  match current with
  | None => skip
  | Some worker =>
      setError None ;;
      setText "" ;;
      setStage recognizing ;;
      match image render with
      | Some url => revokeObjectURL url
      | None => skip
      end ;;
      imageUrl <- createObjectURL imageFile ;;
      setImage (Some imageUrl) ;;
      recognize worker imageFile
  end.

(** [processImage] from its [await] on: the recognition has settled. *)
Definition processImage_resumed (result : Settled Tesseract.RecognizeResult)
  : Js unit :=
  try_catch
    (r <- await result ;;
     setText (Tesseract.text (Tesseract.data r)) ;;
     setStage done)
    (fun _ =>
       setError (Some "Fehler bei der Texterkennung. Versuchen Sie es mit einem anderen Bild.") ;;
       setStage idle).

(** [handleFileSelect]; [files] is [event.target.files]. *)
Definition handleFileSelect (render : AppState) (files : list Blob) : Js unit :=
  match files with
  | file :: _ => processImage render file
  | [] => skip
  end.

(** [handlePaste], up to [await navigator.clipboard.read()]. *)
Definition handlePaste (render : AppState) : Js unit :=
  nav <- getClipboard ;;
  if negb (match nav with Some c => hasRead c | None => false end)
  then setError (Some "Die Zwischenablage-API wird von Ihrem Browser nicht unterst端tzt.")
  else clipboardRead render.

(** The [for (const item of clipboardItems)] loop of [handlePaste] up to
    its [await]: the promise [getType] returns for the first image type of
    the first item that has one, or nothing when the loop runs to its end
    and [imageBlob] stays [null]. *)
Fixpoint findImageBlob (clipboardItems : list ClipboardItem) : option (Settled Blob) :=
  match clipboardItems with
  | [] => None
  | item :: rest =>
      match find (fun type => String.prefix "image/" type) (types item) with
      | Some imageType =>
          if truthy imageType
          then Some (getType item imageType)
          else findImageBlob rest
      | None => findImageBlob rest
      end
  end.

(** The [catch (err)] clause of [handlePaste]. *)
Definition handlePaste_catch (err : JsError) : Js unit :=
  if instanceofError err && (name err =? "NotAllowedError")
  then setError (Some "Zugriff auf die Zwischenablage wurde verweigert.")
  else setError (Some "Fehler beim Einf端gen aus der Zwischenablage.").

(** [handlePaste] from its first [await] to its second: the clipboard read
    has settled; the loop either reaches [await item.getType(imageType)],
    where the function is suspended again, or ends without a picture. *)
Definition handlePaste_resumed
    (render : AppState) (read : Settled (list ClipboardItem)) : Js unit :=
  try_catch
    (clipboardItems <- await read ;;
     match findImageBlob clipboardItems with
     | Some promise => getTypeCalled render promise
     | None => setError (Some "Kein Bild in der Zwischenablage gefunden.")
     end)
    handlePaste_catch.

(** [handlePaste] from its second [await] on: [getType] has settled, the
    loop is left by its [break] and the picture is submitted.  The
    [processImage] called is the one of the render [handlePaste] was called
    in. *)
Definition handlePaste_withBlob
    (render : AppState) (settled : Settled Blob) : Js unit :=
  try_catch
    (imageBlob <- await settled ;;
     processImage render imageBlob)
    handlePaste_catch.

(** [handleReset] *)
Definition handleReset (render : AppState) : Js unit :=
  match image render with
  | Some url => revokeObjectURL url
  | None => skip
  end ;;
  setImage None ;;
  setText "" ;;
  setError None ;;
  setStage idle ;;
  setProgress {| Progress.status := ""; Progress.progress := 0 |} ;;
  input <- getInputRef ;;
  match input with
  | Some el => setInputRef (Some {| value := ""; capture := capture el |})
  | None => skip
  end.

(** [handleCopy] *)
Definition handleCopy (render : AppState) : Js unit :=
  writeText (text render) ;;
  setCopyButtonText "Kopiert!" ;;
  setTimeout.

(** [triggerFileUpload]; the [click()] opens the file picker. *)
Definition triggerFileUpload (capture : bool) : Js unit :=
  input <- getInputRef ;;
  match input with
  | Some el =>
      setInputRef (Some {| value := value el;
                           capture := if capture then Some "environment" else None |})
  | None => skip
  end.

(** ** What the component renders *)

(** [const isProcessing = stage === 'initializing' || stage === 'recognizing'] *)
Definition isProcessing (s : AppState) : bool :=
  Stage_eqb (stage s) initializing || Stage_eqb (stage s) recognizing.

(** [stage !== 'done' && !text]: the three acquisition buttons and the file
    input are in the page. *)
Definition acquisitionShown (s : AppState) : bool :=
  negb (Stage_eqb (stage s) done) && negb (truthy (text s)).

(** [disabled={!workerReady || isProcessing}] *)
Definition acquisitionDisabled (s : AppState) : bool :=
  negb (workerReady s) || isProcessing s.

(** A click on an acquisition button reaches its handler. *)
Definition acquisitionEnabled (s : AppState) : bool :=
  acquisitionShown s && negb (acquisitionDisabled s).

(** [text && ...]: the result view with its copy and reset buttons. *)
Definition resultShown (s : AppState) : bool := truthy (text s).

(** React attaches [inputRef] to the file input while it is in the page and
    clears it when the input leaves the page. *)
Definition render (w : World) : World :=
  exec (setInputRef
          (if acquisitionShown (state w)
           then match inputRef w with
                | Some el => Some el
                | None => Some {| value := ""; capture := None |}
                end
           else None)) w.

(** ** The component over time *)

Definition initialState : AppState :=
  {| image := None; text := ""; error := None; stage := idle;
     progress := {| Progress.status := ""; Progress.progress := 0 |};
     workerReady := false; copyButtonText := "Kopieren" |}.

(** The page before the component is mounted; [nav] is
    [navigator.clipboard]. *)
Definition initialWorld (nav : option Clipboard) : World :=
  {| state := initialState; workerRef := None; inputRef := None;
     objectURLs := []; nextURL := 0; clipboard := nav; copyTimers := 0;
     terminated := []; pendingInit := false; pendingReads := [];
     pendingBlobs := []; inFlight := [] |}.

(** First render, then the effect: [initializeWorker()] is called. *)
Definition mount (nav : option Clipboard) : World :=
  render (exec initializeWorker (render (initialWorld nav))).

(** Unmounting runs the effect's cleanup. *)
Definition unmount (w : World) : World := exec cleanup w.

(** What can happen to the mounted component: a progress message of the
    engine, a suspended function resumed by the promise it waits for, a
    timer, or the user.  A settling promise is named by its position [n]
    among the pending ones of its kind; promises settle in any order.
    [Upload] is a click on "Hochladen" ([capture] false) or "Aufnehmen"
    ([capture] true) together with the selection made in the file picker it
    opens. *)
Inductive Event : Type :=
| Logger (m : Tesseract.LoggerMessage)
| InitSettled (created : Settled Tesseract.Worker) (loaded initialized : Settled unit)
| Upload (capture : bool) (files : list Blob)
| PasteClick
| ClipboardSettled (n : nat) (read : Settled (list ClipboardItem))
| GetTypeSettled (n : nat)
| RecognizeSettled (n : nat) (result : Settled Tesseract.RecognizeResult)
| ResetClick
| CopyClick
| CopyTimeout.

(** An event can occur: a button is in the page and not disabled, a promise
    is pending, a timer is set. *)
Definition enabled (w : World) (e : Event) : bool :=
  match e with
  | Logger _ => true
  | InitSettled _ _ _ => pendingInit w
  | Upload _ _ | PasteClick => acquisitionEnabled (state w)
  | ClipboardSettled n _ =>
      match nth_error (pendingReads w) n with Some _ => true | None => false end
  | GetTypeSettled n =>
      match nth_error (pendingBlobs w) n with Some _ => true | None => false end
  | RecognizeSettled n _ =>
      match nth_error (inFlight w) n with Some _ => true | None => false end
  | ResetClick | CopyClick => resultShown (state w)
  | CopyTimeout => match copyTimers w with O => false | S _ => true end
  end.

(** The browser notes the selection in the file input. *)
Definition selectFiles (files : list Blob) : Js unit :=
  input <- getInputRef ;;
  match input, files with
  | Some el, file :: _ =>
      setInputRef (Some {| value := blobName file; capture := capture el |})
  | _, _ => skip
  end.

(** The code an event runs.  A handler called by the page is the one of the
    current render; a resumed function keeps the render it was called in. *)
Definition handle (e : Event) : Js unit :=
  fun w =>
    match e with
    | Logger m => updateProgress m w
    | InitSettled created loaded initialized =>
        (setPendingInit false ;;
         initializeWorker_resumed created loaded initialized) w
    | Upload capture files =>
        (triggerFileUpload capture ;;
         selectFiles files ;;
         handleFileSelect (state w) files) w
    | PasteClick => handlePaste (state w) w
    | ClipboardSettled n read =>
        match nth_error (pendingReads w) n with
        | Some closure =>
            (setPendingReads (dropNth n (pendingReads w)) ;;
             handlePaste_resumed closure read) w
        | None => skip w
        end
    | GetTypeSettled n =>
        match nth_error (pendingBlobs w) n with
        | Some (closure, settled) =>
            (setPendingBlobs (dropNth n (pendingBlobs w)) ;;
             handlePaste_withBlob closure settled) w
        | None => skip w
        end
    | RecognizeSettled n result =>
        match nth_error (inFlight w) n with
        | Some _ =>
            (setInFlight (dropNth n (inFlight w)) ;;
             processImage_resumed result) w
        | None => skip w
        end
    | ResetClick => handleReset (state w) w
    | CopyClick => handleCopy (state w) w
    | CopyTimeout =>
        (setCopyTimers (pred (copyTimers w)) ;; setCopyButtonText "Kopieren") w
    end.

Definition step (w : World) (e : Event) : World :=
  if enabled w e then render (exec (handle e) w) else w.

Definition run (w : World) (events : list Event) : World :=
  fold_left step events w.

(** ** Runs without overlapping acquisitions *)

(** The two events by which the user starts an acquisition. *)
Definition startsAcquisition (e : Event) : bool :=
  match e with
  | Upload _ _ | PasteClick => true
  | _ => false
  end.

(** A paste is pending: [handlePaste] is suspended at the clipboard read or
    at [getType]. *)
Definition pastePending (w : World) : bool :=
  match pendingReads w, pendingBlobs w with
  | [], [] => false
  | _, _ => true
  end.

(** No upload and no second paste is started while a paste is pending. *)
Fixpoint oneAtATime (w : World) (events : list Event) : bool :=
  match events with
  | [] => true
  | e :: rest =>
      (if pastePending w then negb (startsAcquisition e) else true)
      && oneAtATime (step w e) rest
  end.

(** What holds of the component along such runs. *)
Record Orderly (w : World) : Prop := {
  o_error : error (state w) <> None ->
            stage (state w) = idle /\ text (state w) = "";
  o_flight : inFlight w <> [] ->
             length (inFlight w) = 1 /\ stage (state w) = recognizing /\
             text (state w) = "" /\ error (state w) = None /\
             pastePending w = false /\ pendingInit w = false;
  o_init : pendingInit w = true ->
           stage (state w) = initializing /\ text (state w) = "" /\
           pastePending w = false;
  o_reads : pendingReads w <> [] ->
            stage (state w) = idle /\ text (state w) = "" /\
            pendingBlobs w = [] /\
            exists closure, pendingReads w = [closure] /\
                            image closure = image (state w);
  o_blobs : pendingBlobs w <> [] ->
            stage (state w) = idle /\ text (state w) = "" /\
            pendingReads w = [] /\
            exists closure settled, pendingBlobs w = [(closure, settled)] /\
                                    image closure = image (state w);
  o_urls : objectURLs w = match image (state w) with
                          | Some url => [url]
                          | None => []
                          end
}.

(** What holds of the component along every run. *)
Record Steady (w : World) : Prop := {
  s_worker : workerReady (state w) = true -> workerRef w <> None;
  s_reads : pastePending w = true -> workerReady (state w) = true;
  s_urls : forall url, In url (objectURLs w) -> url < nextURL w;
  s_image : forall url, image (state w) = Some url -> url < nextURL w
}.

(** ** Sample inputs *)

Definition photo : Blob := {| blobName := "photo.png"; blobType := "image/png" |}.
Definition shot : Blob := {| blobName := "image.png"; blobType := "image/png" |}.

(** A browser with the asynchronous clipboard API. *)
Definition withClipboard : option Clipboard :=
  Some {| hasRead := true; written := [] |}.

Definition resolved : Settled unit := Fulfilled tt.

(** A copied screenshot: one clipboard item that offers an HTML fragment
    and the picture. *)
Definition screenshotItem : ClipboardItem :=
  {| types := ["text/html"; "image/png"]; getType := fun _ => Fulfilled shot |}.

(** Copied text. *)
Definition textItem : ClipboardItem :=
  {| types := ["text/plain"];
     getType := fun _ => Fulfilled {| blobName := ""; blobType := "text/plain" |} |}.

Definition recognized (s : string) : Settled Tesseract.RecognizeResult :=
  Fulfilled {| Tesseract.data := {| Tesseract.text := s |} |}.

Definition notAllowed : JsError :=
  {| instanceofError := true; name := "NotAllowedError" |}.

Definition engineFailure : JsError :=
  {| instanceofError := true; name := "Error" |}.

(** The last message of a successful start of the engine. *)
Definition initialized_api : Tesseract.LoggerMessage :=
  {| Tesseract.status := "initialized api"; Tesseract.progress := 1;
     Tesseract.jobId := "" |}.

(** The engine has started, the page waits for an image. *)
Definition ready : World :=
  run (mount withClipboard) [Logger initialized_api; InitSettled (Fulfilled 7) resolved resolved].

(** "Einfügen" is pressed and, before the clipboard read settles, a file is
    uploaded. *)
Definition pasteThenUpload : World :=
  run ready [PasteClick; Upload false [photo]].

(** ** The page the component renders *)

(** [status.replace(/_/g, ' ')] *)
Fixpoint replaceUnderscores (s : string) : string :=
  match s with
  | EmptyString => EmptyString
  | String c rest =>
      String (if Ascii.eqb c "_"%char then " "%char else c) (replaceUnderscores rest)
  end.

(** What [ProgressBar] puts on the page: the fraction the width of the bar
    is computed from, and the line under the bar.  The width itself, the
    floating-point product [progress * 100] written as a percentage, is not
    modelled. *)
Record ProgressBarView := { barFraction : Q; barText : string }.

Definition ProgressBar (progress : Q) (status : string) : ProgressBarView :=
  {| barFraction := progress;
     barText := replaceUnderscores status ++ "..." |}.

(** The conditional parts of the JSX [App] returns. [acquisitionButtons] holds the
    [disabled] attribute of the three acquisition buttons, [resultView] the
    value of the text area and the label of the copy button. *)
Record Page := {
  acquisitionButtons : option bool;
  progressIndicator : option ProgressBarView;
  errorBanner : option string;
  imagePreview : option ObjectURL;
  resultView : option (string * string)
}.

Definition page (s : AppState) : Page :=
  {| acquisitionButtons :=
       if acquisitionShown s then Some (acquisitionDisabled s) else None;
     progressIndicator :=
       if isProcessing s
       then Some (ProgressBar (Progress.progress (progress s))
                              (Progress.status (progress s)))
       else None;
     errorBanner :=
       match error s with
       | Some message => if truthy message then Some message else None
       | None => None
       end;
     imagePreview := image s;
     resultView :=
       if truthy (text s) then Some (text s, copyButtonText s) else None |}.

(** The events that are actions of the user. *)
Definition userEvent (e : Event) : bool :=
  match e with
  | Upload _ _ | PasteClick | ResetClick | CopyClick => true
  | _ => false
  end.

(** What holds of the component along every run, beyond [Steady]. *)
Record Wired (w : World) : Prop := {
  w_init : pendingInit w = true <-> stage (state w) = initializing;
  w_starting : pendingInit w = true ->
               workerRef w = None /\ inFlight w = [] /\ text (state w) = "" /\
               error (state w) = None /\ image (state w) = None /\
               objectURLs w = [];
  w_busy : stage (state w) = recognizing ->
           inFlight w <> [] /\ text (state w) = "";
  w_calls : forall call, In call (inFlight w) -> workerRef w = Some (fst call);
  w_ready : workerReady (state w) = true <-> workerRef w <> None;
  w_terminated : terminated w = [];
  w_shown : forall url, image (state w) = Some url -> In url (objectURLs w);
  w_nodup : NoDup (objectURLs w);
  w_input : inputRef w = None <-> acquisitionShown (state w) = false
}.

(** What holds in addition along runs without overlapping acquisitions. *)
Record Tidy (w : World) : Prop := {
  t_text : text (state w) <> "" -> stage (state w) = done;
  t_done : stage (state w) = done -> image (state w) <> None;
  t_flight : inFlight w <> [] -> image (state w) <> None
}.

(** The copy button: its label, the timers that put it back, and what has
    been written to the clipboard since [w0]. *)
Record Copied (w0 w : World) : Prop := {
  c_label : copyButtonText (state w) = "Kopieren" \/
            (copyButtonText (state w) = "Kopiert!" /\ copyTimers w <> 0);
  c_clipboard :
    match clipboard w0, clipboard w with
    | Some c0, Some c =>
        hasRead c = hasRead c0 /\
        exists added, written c = (written c0 ++ added)%list /\
                      Forall (fun s => s <> "") added
    | None, None => True
    | _, _ => False
    end
}.

(** The worker [initializeWorker] ends up with: the three awaited calls
    must all have been fulfilled. *)
Definition engineStarted
    (created : Settled Tesseract.Worker) (loaded initialized : Settled unit)
  : option Tesseract.Worker :=
  match created, loaded, initialized with
  | Fulfilled worker, Fulfilled _, Fulfilled _ => Some worker
  | _, _, _ => None
  end.

(** The component after a failed start of the engine. *)
Record Broken (w : World) : Prop := {
  b_worker : workerRef w = None;
  b_ready : workerReady (state w) = false;
  b_stage : stage (state w) = idle;
  b_text : text (state w) = "";
  b_error : error (state w)
            = Some "Tesseract.js konnte nicht initialisiert werden. Bitte laden Sie die Seite neu.";
  b_image : image (state w) = None;
  b_urls : objectURLs w = [];
  b_calls : inFlight w = [];
  b_reads : pastePending w = false;
  b_init : pendingInit w = false;
  b_terminated : terminated w = []
}.

(** The component after a recognition that produced no text, with nothing
    pending. *)
Record Stuck (w : World) : Prop := {
  k_stage : stage (state w) = done;
  k_text : text (state w) = "";
  k_calls : inFlight w = [];
  k_reads : pastePending w = false;
  k_init : pendingInit w = false
}.

(** * Properties *)

(** ** Auxiliary facts *)

Lemma truthy_false (s : string) : truthy s = false -> s = "".
Proof.
  unfold truthy. intros H. apply negb_false_iff in H. now apply String.eqb_eq.
Qed.

Lemma remove_single (u : nat) : remove Nat.eq_dec u [u] = [].
Proof. cbn. destruct (Nat.eq_dec u u); congruence. Qed.

Lemma acquisitionEnabled_inv (s : AppState) :
  acquisitionEnabled s = true ->
  stage s = idle /\ text s = "" /\ workerReady s = true.
Proof.
  unfold acquisitionEnabled, acquisitionShown, acquisitionDisabled, isProcessing.
  destruct (stage s), (workerReady s), (truthy (text s)) eqn:T; cbn;
    try discriminate.
  intros _. now rewrite (truthy_false _ T).
Qed.

Lemma resultShown_inv (s : AppState) :
  resultShown s = true -> text s <> "".
Proof.
  unfold resultShown, truthy. intros H E. rewrite E in H. discriminate.
Qed.

Lemma pastePending_false (w : World) :
  pastePending w = false -> pendingReads w = [] /\ pendingBlobs w = [].
Proof.
  unfold pastePending. destruct (pendingReads w), (pendingBlobs w);
    intros; try discriminate; now split.
Qed.

Lemma pastePending_true (w : World) :
  pastePending w = true -> pendingReads w <> [] \/ pendingBlobs w <> [].
Proof.
  unfold pastePending. destruct (pendingReads w), (pendingBlobs w);
    intros; try discriminate; [right|left|left]; discriminate.
Qed.

(** The only element of a one-element list is the one at position 0. *)
Lemma nth_error_one {A : Type} (x y : A) (n : nat) :
  nth_error [x] n = Some y -> n = 0 /\ y = x.
Proof. destruct n as [|[|n]]; cbn; intros [=]; now split. Qed.

Lemma in_dropNth {A : Type} (n : nat) (l : list A) (x : A) :
  In x (dropNth n l) -> In x l.
Proof.
  unfold dropNth. intros H. apply in_app_or in H as [H|H].
  - rewrite <- (firstn_skipn n l). apply in_or_app. now left.
  - rewrite <- (firstn_skipn (S n) l). apply in_or_app. now right.
Qed.

Lemma processImage_returns (closure : AppState) (imageFile : Blob) (w : World) :
  outcome (processImage closure imageFile) w = Fulfilled tt.
Proof.
  unfold outcome, processImage, bind, getWorkerRef.
  destruct (workerRef w); [|reflexivity].
  destruct (image closure); reflexivity.
Qed.

(** However the clipboard read settles, [handlePaste] goes on in one of two
    ways: it reports an error, or it asks an item for its picture and is
    suspended again. *)
Lemma handlePaste_resumed_cases
    (closure : AppState) (read : Settled (list ClipboardItem)) (w : World) :
  (exists msg, handlePaste_resumed closure read w = setError (Some msg) w) \/
  (exists promise, handlePaste_resumed closure read w = getTypeCalled closure promise w).
Proof.
  unfold handlePaste_resumed, try_catch, bind, await, handlePaste_catch.
  destruct read as [clipboardItems|err].
  - destruct (findImageBlob clipboardItems) as [promise|].
    + right. exists promise. reflexivity.
    + left. eexists. reflexivity.
  - left. destruct (instanceofError err && (name err =? "NotAllowedError"));
      eexists; reflexivity.
Qed.

(** However [getType] settles, [handlePaste] ends in one of two ways: it
    reports an error, or it submits the picture. *)
Lemma handlePaste_withBlob_cases
    (closure : AppState) (settled : Settled Blob) (w : World) :
  (exists msg, handlePaste_withBlob closure settled w = setError (Some msg) w) \/
  (exists blob, handlePaste_withBlob closure settled w = processImage closure blob w).
Proof.
  unfold handlePaste_withBlob, try_catch, bind, await, handlePaste_catch.
  destruct settled as [blob|err].
  - right. exists blob.
    pose proof (processImage_returns closure blob w) as Hr. unfold outcome in Hr.
    destruct (processImage closure blob w) as [w' r]. cbn in Hr. now subst r.
  - left. destruct (instanceofError err && (name err =? "NotAllowedError"));
      eexists; reflexivity.
Qed.

Ltac orderly_done :=
  constructor; cbn in *; intros;
  repeat match goal with
         | H : ?a <> ?a |- _ => now elim H
         | H : _ /\ _ |- _ => destruct H
         | |- _ /\ _ => split
         end;
  try solve [ reflexivity | congruence | tauto | intuition congruence
            | eexists; split; reflexivity
            | eexists; eexists; split; reflexivity ].

Lemma step_orderly (w : World) (e : Event) :
  Orderly w ->
  (pastePending w = false \/ startsAcquisition e = false) ->
  Orderly (step w e).
Proof.
  intros [He Hf Hi Hr Hb Hu] Hseq.
  unfold step. destruct (enabled w e) eqn:En; [|constructor; assumption].
  destruct w as [s wr ir urls nu cb ct tm pi prs pbs fl].
  destruct s as [im tx er sg pg rdy cbt].
  cbn in *.
  destruct e; cbn in *.
  - orderly_done.
  - subst pi. destruct (Hi eq_refl) as (-> & -> & Hp).
    apply pastePending_false in Hp. cbn in Hp. destruct Hp as (-> & ->).
    destruct created, loaded, initialized; cbn; orderly_done.
  - apply acquisitionEnabled_inv in En. cbn in En. destruct En as (-> & -> & ->).
    destruct Hseq as [Hp|?]; [|discriminate].
    apply pastePending_false in Hp. cbn in Hp. destruct Hp as (-> & ->).
    destruct fl; [|destruct (Hf ltac:(discriminate)) as (_ & ? & _); discriminate].
    destruct pi; [destruct (Hi eq_refl); discriminate|].
    destruct ir, files, wr, im; cbn; subst; try rewrite remove_single; orderly_done.
  - apply acquisitionEnabled_inv in En. cbn in En. destruct En as (-> & -> & ->).
    destruct Hseq as [Hp|?]; [|discriminate].
    apply pastePending_false in Hp. cbn in Hp. destruct Hp as (-> & ->).
    destruct fl; [|destruct (Hf ltac:(discriminate)) as (_ & ? & _); discriminate].
    destruct pi; [destruct (Hi eq_refl); discriminate|].
    destruct cb as [[[] ?]|]; cbn; orderly_done.
  - destruct (nth_error prs n) as [closure|] eqn:Hn; [|discriminate].
    assert (Hne : prs <> []) by (intros ->; destruct n; discriminate).
    destruct (Hr Hne) as (-> & -> & -> & c & -> & Him).
    apply nth_error_one in Hn as (-> & ->).
    destruct fl; [|destruct (Hf ltac:(discriminate)) as (_ & ? & _); discriminate].
    destruct pi; [destruct (Hi eq_refl); discriminate|].
    unfold exec, bind, setPendingReads, modify, dropNth. cbn.
    match goal with |- context [handlePaste_resumed c read ?W] =>
      destruct (handlePaste_resumed_cases c read W) as [[msg ->]|[promise ->]]
    end.
    + cbn. orderly_done.
    + unfold getTypeCalled, setPendingBlobs, modify. cbn. orderly_done.
      exists c, promise. now split.
  - destruct (nth_error pbs n) as [[closure settled]|] eqn:Hn; [|discriminate].
    assert (Hne : pbs <> []) by (intros ->; destruct n; discriminate).
    destruct (Hb Hne) as (-> & -> & -> & c & s & -> & Him).
    apply nth_error_one in Hn as (-> & [= -> ->]).
    destruct fl; [|destruct (Hf ltac:(discriminate)) as (_ & ? & _); discriminate].
    destruct pi; [destruct (Hi eq_refl); discriminate|].
    unfold exec, bind, setPendingBlobs, modify, dropNth. cbn.
    match goal with |- context [handlePaste_withBlob c s ?W] =>
      destruct (handlePaste_withBlob_cases c s W) as [[msg ->]|[blob ->]]
    end.
    + cbn. orderly_done.
    + unfold processImage, bind, getWorkerRef. cbn.
      destruct wr; cbn; [|orderly_done].
      rewrite Him. destruct im; cbn; subst; try rewrite remove_single; orderly_done.
  - destruct (nth_error fl n) as [call|] eqn:Hn; [|discriminate].
    assert (Hne : fl <> []) by (intros ->; destruct n; discriminate).
    destruct (Hf Hne) as (Hlen & -> & -> & -> & Hp & ->).
    apply pastePending_false in Hp. cbn in Hp. destruct Hp as (-> & ->).
    destruct fl as [|call0 [|]]; try discriminate.
    apply nth_error_one in Hn as (-> & ->).
    destruct result; cbn; orderly_done.
  - apply resultShown_inv in En. cbn in En.
    destruct fl; [|destruct (Hf ltac:(discriminate)) as (_ & _ & ? & _); congruence].
    destruct prs; [|destruct (Hr ltac:(discriminate)) as (_ & ? & _); congruence].
    destruct pbs; [|destruct (Hb ltac:(discriminate)) as (_ & ? & _); congruence].
    destruct pi; [destruct (Hi eq_refl) as (_ & ? & _); congruence|].
    destruct im, ir; cbn; subst; try rewrite remove_single; orderly_done.
  - destruct cb; cbn; orderly_done.
  - destruct ct; [discriminate|]. cbn. orderly_done.
Qed.

Ltac steady_done :=
  constructor; cbn in *; intros;
  repeat match goal with
         | H : ?a <> ?a |- _ => now elim H
         | H : Some _ = Some _ |- _ => injection H as H; subst
         | H : In _ (remove _ _ _) |- _ => apply in_remove in H; destruct H as [H _]
         | H : _ \/ _ |- _ => destruct H; subst
         | H : In _ (_ ++ _) |- _ => apply in_app_or in H
         end;
  try solve [ reflexivity | congruence | tauto | lia | auto
            | match goal with
              | Hu : forall u, In u _ -> u < _, H : In _ _ |- _ =>
                  specialize (Hu _ H); lia
              | Hi : forall u, Some _ = Some u -> u < _ |- _ =>
                  specialize (Hi _ eq_refl); lia
              end ].

Lemma step_steady (w : World) (e : Event) : Steady w -> Steady (step w e).
Proof.
  intros [Hw Hr Hu Hi].
  unfold step. destruct (enabled w e) eqn:En; [|constructor; assumption].
  destruct w as [s wr ir urls nu cb ct tm pi prs pbs fl].
  destruct s as [im tx er sg pg rdy cbt].
  cbn in *.
  destruct e; cbn in *.
  - steady_done.
  - destruct created, loaded, initialized; cbn; steady_done.
  - apply acquisitionEnabled_inv in En. cbn in En. destruct En as (-> & -> & ->).
    destruct ir, files, wr, im; cbn; steady_done.
  - apply acquisitionEnabled_inv in En. cbn in En. destruct En as (-> & -> & ->).
    destruct cb as [[[] ?]|]; cbn; steady_done.
  - destruct (nth_error prs n) as [closure|] eqn:Hn; [|discriminate].
    assert (rdy = true)
      by (apply Hr; destruct prs; [destruct n; discriminate|reflexivity]).
    subst rdy.
    unfold exec, handle. cbn. rewrite Hn.
    unfold bind, setPendingReads, modify. cbn.
    match goal with |- context [handlePaste_resumed closure read ?W] =>
      destruct (handlePaste_resumed_cases closure read W) as [[msg ->]|[promise ->]]
    end.
    + cbn. steady_done.
    + unfold getTypeCalled, setPendingBlobs, modify. cbn. steady_done.
  - destruct (nth_error pbs n) as [[closure settled]|] eqn:Hn; [|discriminate].
    assert (rdy = true)
      by (apply Hr; destruct prs, pbs; try reflexivity; destruct n; discriminate).
    subst rdy.
    unfold exec, handle. cbn. rewrite Hn.
    unfold bind, setPendingBlobs, modify. cbn.
    match goal with |- context [handlePaste_withBlob closure settled ?W] =>
      destruct (handlePaste_withBlob_cases closure settled W) as [[msg ->]|[blob ->]]
    end.
    + cbn. steady_done.
    + unfold processImage, bind, getWorkerRef. cbn.
      destruct wr; cbn; [|steady_done].
      destruct (image closure); cbn; steady_done.
  - destruct (nth_error fl n) as [call|] eqn:Hn; [|discriminate].
    unfold exec, handle. cbn. rewrite Hn.
    destruct result; cbn; steady_done.
  - destruct im, ir; cbn; steady_done.
  - destruct cb; cbn; steady_done.
  - destruct ct; [discriminate|]. cbn. steady_done.
Qed.

Lemma mount_orderly (nav : option Clipboard) : Orderly (mount nav).
Proof. constructor; cbn; intros; try discriminate; try tauto; auto. Qed.

Lemma mount_steady (nav : option Clipboard) : Steady (mount nav).
Proof. constructor; cbn; intros; try discriminate; try tauto. Qed.

Lemma run_steady (events : list Event) : forall w, Steady w -> Steady (run w events).
Proof.
  induction events as [|e rest IH]; intros w Hw; [exact Hw|].
  apply IH, step_steady, Hw.
Qed.

Lemma run_orderly (events : list Event) :
  forall w, Orderly w -> oneAtATime w events = true -> Orderly (run w events).
Proof.
  induction events as [|e rest IH]; intros w Hw Hseq; [exact Hw|].
  cbn in Hseq. apply andb_true_iff in Hseq as [Hnow Hlater].
  apply IH; [|exact Hlater].
  apply step_orderly; [exact Hw|].
  destruct (pastePending w); [right|now left].
  now apply negb_true_iff.
Qed.

Lemma step_disabled (w : World) (e : Event) : enabled w e = false -> step w e = w.
Proof. unfold step. now intros ->. Qed.

(** What [processImage] does once the engine handle is there. *)
Lemma processImage_started
    (closure : AppState) (imageFile : Blob) (w : World) (worker : Tesseract.Worker) :
  workerRef w = Some worker ->
  let w' := exec (processImage closure imageFile) w in
  error (state w') = None /\ text (state w') = "" /\
  stage (state w') = recognizing /\
  image (state w') = Some (nextURL w) /\
  progress (state w') = progress (state w) /\
  objectURLs w' = nextURL w :: match image closure with
                               | Some url => remove Nat.eq_dec url (objectURLs w)
                               | None => objectURLs w
                               end /\
  inFlight w' = (inFlight w ++ [(worker, imageFile)])%list.
Proof.
  intros Hw. unfold exec, processImage, bind, getWorkerRef. rewrite Hw.
  destruct (image closure); cbn; repeat split; reflexivity.
Qed.

(** ** C1: the contract of [processImage] *)

(** C1 as stated does not hold: [processImage] has no test of [stage].
    With a paste pending from an earlier click on "Einfügen", an upload
    starts a recognition; when the clipboard read and then [getType] settle
    with a picture, [handlePaste] calls [processImage] in stage
    [recognizing], which replaces the preview handle and puts a second
    recognition call in flight. *)
Lemma processImage_runs_while_recognizing :
  let w := step pasteThenUpload (ClipboardSettled 0 (Fulfilled [screenshotItem])) in
  let w' := step w (GetTypeSettled 0) in
  workerRef w = Some 7 /\
  stage (state w) = recognizing /\
  inFlight w = [(7, photo)] /\
  exec (processImage (state ready) shot) w <> w /\
  w' <> w /\
  image (state w') <> image (state w) /\
  inFlight w' = [(7, photo); (7, shot)].
Proof.
  cbv zeta. repeat split; try reflexivity.
  - intros H. apply (f_equal (fun x => length (inFlight x))) in H.
    vm_compute in H. discriminate.
  - intros H. apply (f_equal (fun x => length (inFlight x))) in H.
    vm_compute in H. discriminate.
  - vm_compute. discriminate.
Qed.

(** C1, amended: [processImage] does nothing when [workerRef.current] is
    [null]; in every other case, whatever the stage, it leaves stage
    [recognizing], a newly created preview handle and one more recognition
    call in flight.  Overlapping attempts are kept out by the page: the
    acquisition buttons do nothing while [isProcessing], and in a run in
    which no upload or paste is started while a paste is pending (its
    clipboard read or its [getType] call has not settled) at most one
    recognition call is in flight. *)
Theorem processImage_contract :
  (forall closure imageFile w,
     workerRef w = None -> exec (processImage closure imageFile) w = w) /\
  (forall nav events closure imageFile worker,
     let w := run (mount nav) events in
     workerRef w = Some worker ->
     let w' := exec (processImage closure imageFile) w in
     stage (state w') = recognizing /\
     image (state w') = Some (nextURL w) /\
     ~ In (nextURL w) (objectURLs w) /\
     image (state w) <> Some (nextURL w) /\
     In (nextURL w) (objectURLs w') /\
     inFlight w' = (inFlight w ++ [(worker, imageFile)])%list) /\
  (forall w e,
     startsAcquisition e = true -> isProcessing (state w) = true ->
     step w e = w) /\
  (forall nav events,
     oneAtATime (mount nav) events = true ->
     length (inFlight (run (mount nav) events)) <= 1).
Proof.
  split; [|split; [|split]].
  - intros closure imageFile w Hw.
    unfold exec, processImage, bind, getWorkerRef. now rewrite Hw.
  - intros nav events closure imageFile worker w Hw w'.
    destruct (processImage_started closure imageFile w worker Hw)
      as (_ & _ & Hstage & Himage & _ & Hurls & Hcalls).
    destruct (run_steady events _ (mount_steady nav)) as [_ _ Hbelow Hshown].
    fold w in Hbelow, Hshown.
    repeat split; try assumption.
    + intros Hin. apply Hbelow in Hin. lia.
    + intros Heq. apply Hshown in Heq. lia.
    + subst w'. rewrite Hurls. now left.
  - intros w e He Hbusy. apply step_disabled.
    destruct e; try discriminate; cbn;
      unfold acquisitionEnabled, acquisitionDisabled; rewrite Hbusy;
      now rewrite orb_true_r, andb_false_r.
  - intros nav events Hseq.
    destruct (run_orderly events _ (mount_orderly nav) Hseq) as [_ Hcalls _ _ _].
    destruct (inFlight (run (mount nav) events)) eqn:E; [cbn; lia|].
    destruct Hcalls as (-> & _); [discriminate|lia].
Qed.

Lemma processImage_contract_witness :
  exec (processImage initialState photo) (mount withClipboard) = mount withClipboard /\
  stage (state (exec (processImage (state ready) photo) ready)) = recognizing /\
  step pasteThenUpload PasteClick = pasteThenUpload /\
  length (inFlight (run (mount withClipboard)
                        [InitSettled (Fulfilled 7) resolved resolved;
                         Upload false [photo]])) <= 1.
Proof.
  split; [|split; [|split]].
  - apply (proj1 processImage_contract). reflexivity.
  - apply (proj1 (proj2 processImage_contract) withClipboard
             [Logger initialized_api; InitSettled (Fulfilled 7) resolved resolved]
             (state ready) photo 7).
    reflexivity.
  - apply (proj1 (proj2 (proj2 processImage_contract))); reflexivity.
  - apply (proj2 (proj2 (proj2 processImage_contract))). reflexivity.
Defined.


(** ** C2: when the progress display is reset *)

(** C2 as stated does not hold for a new recognition attempt: after the
    engine has started, the progress state still holds the last message of
    the start-up, and submitting an image leaves it there. *)
Lemma progress_kept_by_new_attempt :
  let w := step ready (Upload false [photo]) in
  stage (state w) = recognizing /\
  inFlight w = [(7, photo)] /\
  progress (state w) = {| Progress.status := "initialized api"; Progress.progress := 1 |} /\
  progress (state w) <> {| Progress.status := ""; Progress.progress := 0 |}.
Proof.
  cbv zeta. repeat split; try reflexivity.
  vm_compute. discriminate.
Qed.

(** C2, amended: the progress state is set back to an empty status and zero
    on every reset; [processImage] does not touch it, so a new attempt
    starts with whatever the last progress message left. *)
Theorem progress_reset_only_by_handleReset :
  forall (closure : AppState) (w : World),
    progress (state (exec (handleReset closure) w))
      = {| Progress.status := ""; Progress.progress := 0 |} /\
    (resultShown (state w) = true ->
     progress (state (step w ResetClick))
       = {| Progress.status := ""; Progress.progress := 0 |}) /\
    (forall imageFile,
       progress (state (exec (processImage closure imageFile) w))
         = progress (state w)) /\
    (forall capture files,
       progress (state (step w (Upload capture files))) = progress (state w)).
Proof.
  intros closure w.
  assert (Hreset : forall c v,
             progress (state (exec (handleReset c) v))
               = {| Progress.status := ""; Progress.progress := 0 |}).
  { intros c v. unfold exec, handleReset, bind, getInputRef.
    destruct (image c); cbn; destruct (inputRef v); reflexivity. }
  assert (Hsubmit : forall c f v,
             progress (state (exec (processImage c f) v)) = progress (state v)).
  { intros c f v. unfold exec, processImage, bind, getWorkerRef.
    destruct (workerRef v); [|reflexivity].
    destruct (image c); reflexivity. }
  split; [apply Hreset|split; [|split; [intros; apply Hsubmit|]]].
  - intros Hshown. unfold step. cbn [enabled]. rewrite Hshown.
    cbn. apply Hreset.
  - intros capture files. unfold step.
    destruct (enabled w (Upload capture files)); [|reflexivity].
    destruct w as [s wr ir urls nu cb ct tm pi prs pbs fl].
    destruct s as [im tx er sg pg rdy cbt].
    destruct ir, files, wr, im; reflexivity.
Qed.

Lemma progress_reset_only_by_handleReset_witness :
  let w := run ready [Upload false [photo]; RecognizeSettled 0 (recognized "Hallo Welt")] in
  resultShown (state w) = true /\
  progress (state (step w ResetClick))
    = {| Progress.status := ""; Progress.progress := 0 |}.
Proof.
  cbv zeta. split; [reflexivity|].
  apply (proj1 (proj2 (progress_reset_only_by_handleReset initialState _))).
  reflexivity.
Defined.

(** ** C3: what unmounting releases *)

(** C3 as stated does not hold for the preview handle: the cleanup of the
    effect terminates the worker and does nothing else, so the object URL
    of the displayed image stays registered. *)
Lemma unmount_keeps_preview_handle :
  let w := run ready [Upload false [photo]; RecognizeSettled 0 (recognized "Hallo Welt")] in
  stage (state w) = done /\
  image (state w) = Some 0 /\
  terminated (unmount w) = [7] /\
  workerRef (unmount w) = None /\
  image (state (unmount w)) = Some 0 /\
  In 0 (objectURLs (unmount w)).
Proof. cbv zeta. repeat split; try reflexivity. vm_compute. now left. Qed.

(** C3, amended: on unmount, from any stage, the worker held in
    [workerRef] (if there is one) is terminated and the ref is cleared; the
    preview handle is not released: the object URLs, the state and the
    pending calls are left as they are. *)
Theorem unmount_terminates_worker_only :
  forall w : World,
    let w' := unmount w in
    workerRef w' = None /\
    terminated w' = match workerRef w with
                    | Some worker => worker :: terminated w
                    | None => terminated w
                    end /\
    objectURLs w' = objectURLs w /\
    state w' = state w /\
    inFlight w' = inFlight w /\
    pendingReads w' = pendingReads w /\
    pendingBlobs w' = pendingBlobs w.
Proof.
  intros w. unfold unmount, exec, cleanup, bind, getWorkerRef.
  destruct (workerRef w); cbn; repeat split; reflexivity.
Qed.


(** ** The clipboard scan *)

Lemma handlePaste_resumed_found
    (closure : AppState) (clipboardItems : list ClipboardItem)
    (promise : Settled Blob) (w : World) :
  findImageBlob clipboardItems = Some promise ->
  handlePaste_resumed closure (Fulfilled clipboardItems) w
    = getTypeCalled closure promise w.
Proof.
  intros Hscan. unfold handlePaste_resumed, try_catch, bind, await.
  now rewrite Hscan.
Qed.


Lemma handlePaste_withBlob_fulfilled
    (closure : AppState) (blob : Blob) (w : World) :
  handlePaste_withBlob closure (Fulfilled blob) w = processImage closure blob w.
Proof.
  unfold handlePaste_withBlob, try_catch, bind, await.
  pose proof (processImage_returns closure blob w) as Hr. unfold outcome in Hr.
  destruct (processImage closure blob w) as [w' r]. cbn in Hr. now subst r.
Qed.

(** [render] and the bookkeeping of promises change neither the state nor
    the engine handle. *)
Lemma render_frame (w : World) :
  state (render w) = state w /\ inFlight (render w) = inFlight w /\
  objectURLs (render w) = objectURLs w /\ workerRef (render w) = workerRef w.
Proof. repeat split; reflexivity. Qed.

Lemma upload_handled (w : World) (capture : bool) (file : Blob) (files : list Blob) :
  exists input,
    exec (handle (Upload capture (file :: files))) w
      = exec (processImage (state w) file) (exec (setInputRef input) w).
Proof.
  destruct w as [s wr ir urls nu cb ct tm pi prs pbs fl].
  destruct ir as [el|].
  - eexists. reflexivity.
  - exists None. reflexivity.
Qed.

Lemma read_handled
    (w : World) (n : nat) (closure : AppState)
    (read : Settled (list ClipboardItem)) :
  nth_error (pendingReads w) n = Some closure ->
  exec (handle (ClipboardSettled n read)) w
    = exec (handlePaste_resumed closure read)
           (exec (setPendingReads (dropNth n (pendingReads w))) w).
Proof. intros H. unfold exec at 1. unfold handle. now rewrite H. Qed.

Lemma blob_handled
    (w : World) (n : nat) (closure : AppState) (settled : Settled Blob) :
  nth_error (pendingBlobs w) n = Some (closure, settled) ->
  exec (handle (GetTypeSettled n)) w
    = exec (handlePaste_withBlob closure settled)
           (exec (setPendingBlobs (dropNth n (pendingBlobs w))) w).
Proof. intros H. unfold exec at 1. unfold handle. now rewrite H. Qed.

(** ** C4: a submission clears the previous error and text *)

(** C4: whichever adapter hands an image to [processImage] -- the file
    input after "Hochladen" or "Aufnehmen", or [handlePaste] once [getType]
    has given it the picture -- the error message and the recognized text
    are cleared when the handler returns, while the new recognition is
    still in flight. *)
Theorem submission_clears_error_and_text :
  forall (nav : option Clipboard) (events : list Event),
    let w := run (mount nav) events in
    (forall capture file files,
       enabled w (Upload capture (file :: files)) = true ->
       let w' := step w (Upload capture (file :: files)) in
       error (state w') = None /\ text (state w') = "" /\
       stage (state w') = recognizing /\
       exists worker, inFlight w' = (inFlight w ++ [(worker, file)])%list) /\
    (forall n blob,
       option_map snd (nth_error (pendingBlobs w) n) = Some (Fulfilled blob) ->
       let w' := step w (GetTypeSettled n) in
       error (state w') = None /\ text (state w') = "" /\
       stage (state w') = recognizing /\
       exists worker, inFlight w' = (inFlight w ++ [(worker, blob)])%list).
Proof.
  intros nav events w.
  destruct (run_steady events _ (mount_steady nav)) as [Hworker Hreads _ _].
  fold w in Hworker, Hreads.
  split.
  - intros capture file files En w'. subst w'. unfold step. rewrite En.
    cbn in En. apply acquisitionEnabled_inv in En as (_ & _ & Hready).
    destruct (workerRef w) as [worker|] eqn:Href; [|now elim (Hworker Hready)].
    destruct (upload_handled w capture file files) as [input ->].
    destruct (processImage_started (state w) file (exec (setInputRef input) w)
                worker Href)
      as (He & Ht & Hs & _ & _ & _ & Hc).
    repeat split; try assumption. now exists worker.
  - intros n blob Hn w'. subst w'.
    destruct (nth_error (pendingBlobs w) n) as [[closure settled]|] eqn:Hnth;
      [|discriminate].
    cbn in Hn. injection Hn as ->.
    unfold step. cbn [enabled]. rewrite Hnth.
    assert (Hready : workerReady (state w) = true).
    { apply Hreads. unfold pastePending.
      destruct (pendingReads w), (pendingBlobs w); try reflexivity.
      destruct n; discriminate. }
    destruct (workerRef w) as [worker|] eqn:Href; [|now elim (Hworker Hready)].
    rewrite (blob_handled w n closure (Fulfilled blob) Hnth).
    unfold exec at 1 3 5 7. rewrite handlePaste_withBlob_fulfilled.
    destruct (processImage_started closure blob
                (exec (setPendingBlobs (dropNth n (pendingBlobs w))) w)
                worker Href)
      as (He & Ht & Hs & _ & _ & _ & Hc).
    repeat split; try assumption. now exists worker.
Qed.

Lemma submission_clears_error_and_text_witness :
  let failed :=
    run (mount withClipboard)
        [Logger initialized_api; InitSettled (Fulfilled 7) resolved resolved;
         Upload false [photo]; RecognizeSettled 0 (Rejected engineFailure)] in
  let pasting :=
    run (mount withClipboard)
        [Logger initialized_api; InitSettled (Fulfilled 7) resolved resolved;
         Upload false [photo]; RecognizeSettled 0 (Rejected engineFailure);
         PasteClick; ClipboardSettled 0 (Fulfilled [textItem; screenshotItem])] in
  (error (state failed) <> None /\
   enabled failed (Upload true [photo]) = true /\
   error (state (step failed (Upload true [photo]))) = None) /\
  (error (state pasting) <> None /\
   option_map snd (nth_error (pendingBlobs pasting) 0) = Some (Fulfilled shot) /\
   error (state (step pasting (GetTypeSettled 0))) = None).
Proof.
  cbv zeta. split.
  - split; [vm_compute; discriminate|]. split; [reflexivity|].
    pose proof (proj1 (submission_clears_error_and_text withClipboard
             [Logger initialized_api; InitSettled (Fulfilled 7) resolved resolved;
              Upload false [photo]; RecognizeSettled 0 (Rejected engineFailure)])
             true photo []) as H.
    cbv zeta in H. exact (proj1 (H eq_refl)).
  - split; [vm_compute; discriminate|]. split; [reflexivity|].
    pose proof (proj2 (submission_clears_error_and_text withClipboard
             [Logger initialized_api; InitSettled (Fulfilled 7) resolved resolved;
              Upload false [photo]; RecognizeSettled 0 (Rejected engineFailure);
              PasteClick; ClipboardSettled 0 (Fulfilled [textItem; screenshotItem])])
             0 shot) as H.
    cbv zeta in H. exact (proj1 (H eq_refl)).
Defined.

(** ** C5: one preview handle at a time *)

(** X6. Where no acquisition overlaps a pending paste, the handlers run in
    the render whose [image] is the current one, and the object URL of the
    displayed image is the only one registered. *)
Lemma one_handle_without_overlap (nav : option Clipboard) (events : list Event) :
  oneAtATime (mount nav) events = true ->
  objectURLs (run (mount nav) events)
    = match image (state (run (mount nav) events)) with
      | Some url => [url]
      | None => []
      end.
Proof.
  intros Hseq. now destruct (run_orderly events _ (mount_orderly nav) Hseq).
Qed.

(** C5 fails on the code: [processImage] revokes the [image] of the render
    its closure was made in.  The [handlePaste] resumed here was called
    before the upload, when [image] was [null]; it revokes nothing, creates
    the URL 1 and displays it.  URL 0, created for the upload, stays
    registered next to it, and since no later render holds it in [image],
    neither a further submission nor a reset revokes it.  The same happens
    when the upload is made after the clipboard read has settled, while
    [getType] is still pending. *)
Theorem stale_closure_leaks_preview_handle :
  let w := run pasteThenUpload
               [ClipboardSettled 0 (Fulfilled [screenshotItem]); GetTypeSettled 0] in
  (image (state pasteThenUpload) = Some 0 /\ objectURLs pasteThenUpload = [0] /\
   pendingReads pasteThenUpload = [state ready] /\ image (state ready) = None) /\
  (image (state w) = Some 1 /\ objectURLs w = [1; 0]) /\
  (let later := run w [RecognizeSettled 0 (recognized "Hallo");
                       RecognizeSettled 0 (recognized "Welt");
                       ResetClick] in
   image (state later) = None /\ objectURLs later = [0]) /\
  (let w2 := run ready [PasteClick;
                        ClipboardSettled 0 (Fulfilled [screenshotItem]);
                        Upload false [photo];
                        GetTypeSettled 0] in
   image (state w2) = Some 1 /\ objectURLs w2 = [1; 0] /\
   inFlight w2 = [(7, photo); (7, shot)]).
Proof. cbv zeta. repeat split; reflexivity. Qed.

(** ** C6: an error message is shown in stage [idle] only *)

(** C6 as stated does not hold after a clipboard failure: [handlePaste]
    sets the message and leaves [stage] and [text] alone.  When the read
    settles without a picture after an upload has meanwhile been
    recognized, the message stands next to stage [done] and the text. *)
Lemma clipboard_failure_after_recognition :
  let w := run pasteThenUpload
               [RecognizeSettled 0 (recognized "Hallo Welt");
                ClipboardSettled 0 (Fulfilled [textItem])] in
  error (state w) = Some "Kein Bild in der Zwischenablage gefunden." /\
  stage (state w) = done /\
  text (state w) = "Hallo Welt".
Proof. cbv zeta. repeat split; reflexivity. Qed.

(** C6, amended: along every run in which no upload and no further paste
    is started while a paste is pending (from the click on "Einfügen" until
    the clipboard read and, where a picture is found, [getType] have
    settled), after every event (a failed start of the engine, a failed
    recognition, a clipboard failure and a reset among them) an error
    message is present only in stage [idle] with an empty text. *)
Theorem error_only_when_idle :
  forall (nav : option Clipboard) (events : list Event),
    oneAtATime (mount nav) events = true ->
    let s := state (run (mount nav) events) in
    error s <> None -> stage s = idle /\ text s = "".
Proof.
  intros nav events Hseq s.
  now destruct (run_orderly events _ (mount_orderly nav) Hseq).
Qed.

Lemma error_only_when_idle_witness :
  let events := [InitSettled (Fulfilled 7) resolved resolved;
                 Upload false [photo];
                 RecognizeSettled 0 (Rejected engineFailure);
                 PasteClick;
                 ClipboardSettled 0 (Fulfilled [screenshotItem; textItem]);
                 GetTypeSettled 0;
                 RecognizeSettled 0 (recognized "Hallo");
                 ResetClick;
                 PasteClick;
                 ClipboardSettled 0 (Rejected notAllowed)] in
  oneAtATime (mount withClipboard) events = true /\
  error (state (run (mount withClipboard) events))
    = Some "Zugriff auf die Zwischenablage wurde verweigert." /\
  stage (state (run (mount withClipboard) events)) = idle /\
  text (state (run (mount withClipboard) events)) = "".
Proof.
  cbv zeta. split; [reflexivity|]. split; [reflexivity|].
  apply (error_only_when_idle withClipboard
           [InitSettled (Fulfilled 7) resolved resolved;
            Upload false [photo];
            RecognizeSettled 0 (Rejected engineFailure);
            PasteClick;
            ClipboardSettled 0 (Fulfilled [screenshotItem; textItem]);
            GetTypeSettled 0;
            RecognizeSettled 0 (recognized "Hallo");
            ResetClick;
            PasteClick;
            ClipboardSettled 0 (Rejected notAllowed)]).
  - reflexivity.
  - vm_compute. discriminate.
Defined.

(** ** C7: the clipboard adapter *)

Lemma image_type_truthy (type : string) :
  String.prefix "image/" type = true -> truthy type = true.
Proof. destruct type; [discriminate|reflexivity]. Qed.

Lemma find_image_type_none (item : ClipboardItem) :
  (forall type, In type (types item) -> String.prefix "image/" type = false) ->
  find (fun type => String.prefix "image/" type) (types item) = None.
Proof.
  induction (types item) as [|type rest IH]; cbn; intros H; [reflexivity|].
  rewrite (H type (or_introl eq_refl)). apply IH. intros t Ht. apply H. now right.
Qed.

(** Items without an image type are passed over. *)
Lemma findImageBlob_skips (before rest : list ClipboardItem) :
  (forall item, In item before ->
     forall type, In type (types item) -> String.prefix "image/" type = false) ->
  findImageBlob (before ++ rest)%list = findImageBlob rest.
Proof.
  induction before as [|item before IH]; cbn; intros H; [reflexivity|].
  rewrite find_image_type_none by (apply H; now left).
  apply IH. intros other Hin. apply H. now right.
Qed.

(** The loop stops at the first item that has an image type. *)
Lemma findImageBlob_first
    (before : list ClipboardItem) (item : ClipboardItem)
    (after : list ClipboardItem) (imageType : string) :
  (forall other, In other before ->
     forall type, In type (types other) -> String.prefix "image/" type = false) ->
  find (fun type => String.prefix "image/" type) (types item) = Some imageType ->
  findImageBlob (before ++ item :: after)%list = Some (getType item imageType).
Proof.
  intros Hbefore Hfind. rewrite findImageBlob_skips by exact Hbefore.
  cbn. rewrite Hfind.
  now rewrite image_type_truthy by (apply find_some in Hfind; apply Hfind).
Qed.







(** ** C8: a recognition that fails *)

(** Progress messages change the progress state only. *)
Lemma loggers_frame (messages : list Tesseract.LoggerMessage) :
  forall w,
    let w' := run w (map Logger messages) in
    inFlight w' = inFlight w /\ objectURLs w' = objectURLs w /\
    image (state w') = image (state w) /\ text (state w') = text (state w) /\
    error (state w') = error (state w) /\ stage (state w') = stage (state w) /\
    workerReady (state w') = workerReady (state w) /\
    copyButtonText (state w') = copyButtonText (state w).
Proof.
  induction messages as [|m rest IH]; intros w; [cbn; repeat split|].
  cbn [map run fold_left]. specialize (IH (step w (Logger m))).
  cbv zeta in IH. unfold run in IH.
  destruct IH as (H1 & H2 & H3 & H4 & H5 & H6 & H7 & H8).
  cbv zeta. rewrite H1, H2, H3, H4, H5, H6, H7, H8. repeat split.
Qed.

(** What the settling of a recognition call does to the component. *)
Lemma recognition_settled
    (w : World) (n : nat) (result : Settled Tesseract.RecognizeResult) :
  enabled w (RecognizeSettled n result) = true ->
  let w' := step w (RecognizeSettled n result) in
  outcome (handle (RecognizeSettled n result)) w = Fulfilled tt /\
  image (state w') = image (state w) /\
  objectURLs w' = objectURLs w /\
  inFlight w' = dropNth n (inFlight w) /\
  workerReady (state w') = workerReady (state w) /\
  copyButtonText (state w') = copyButtonText (state w) /\
  match result with
  | Fulfilled r =>
      stage (state w') = done /\
      text (state w') = Tesseract.text (Tesseract.data r) /\
      error (state w') = error (state w)
  | Rejected _ =>
      stage (state w') = idle /\
      error (state w')
        = Some "Fehler bei der Texterkennung. Versuchen Sie es mit einem anderen Bild." /\
      text (state w') = text (state w)
  end.
Proof.
  intros En w'. subst w'. unfold step. rewrite En.
  cbn in En. unfold outcome, exec, handle.
  destruct (nth_error (inFlight w) n); [|discriminate].
  destruct result; repeat split; reflexivity.
Qed.

(** A call that is in flight and settles after nothing but progress
    messages. *)
Lemma own_call_settles
    (attempt : World) (k : nat) (call : Tesseract.Worker * Blob)
    (messages : list Tesseract.LoggerMessage)
    (result : Settled Tesseract.RecognizeResult) :
  nth_error (inFlight attempt) k = Some call ->
  let during := run attempt (map Logger messages) in
  let w' := step during (RecognizeSettled k result) in
  nth_error (inFlight during) k = Some call /\
  image (state w') = image (state attempt) /\
  objectURLs w' = objectURLs attempt /\
  workerReady (state w') = workerReady (state attempt) /\
  copyButtonText (state w') = copyButtonText (state attempt) /\
  match result with
  | Fulfilled r =>
      stage (state w') = done /\
      text (state w') = Tesseract.text (Tesseract.data r) /\
      error (state w') = error (state attempt)
  | Rejected _ =>
      stage (state w') = idle /\
      error (state w')
        = Some "Fehler bei der Texterkennung. Versuchen Sie es mit einem anderen Bild." /\
      text (state w') = text (state attempt)
  end.
Proof.
  intros Hk during w'.
  destruct (loggers_frame messages attempt) as (Hf & Hu & Hi & Ht & He & _ & Hr & Hl).
  fold during in Hf, Hu, Hi, Ht, He, Hr, Hl.
  assert (En : enabled during (RecognizeSettled k result) = true).
  { cbn. now rewrite Hf, Hk. }
  destruct (recognition_settled during k result En)
    as (_ & Hi' & Hu' & _ & Hr' & Hl' & Hres).
  fold w' in Hi', Hu', Hr', Hl', Hres.
  split; [now rewrite Hf|].
  split; [congruence|]. split; [congruence|]. split; [congruence|].
  split; [congruence|].
  destruct result; destruct Hres as (? & ? & ?); repeat split; congruence.
Qed.

Lemma nth_error_last {A : Type} (l : list A) (x : A) :
  nth_error (l ++ [x]) (length l) = Some x.
Proof. rewrite nth_error_app2, Nat.sub_diag by lia. reflexivity. Qed.

(** What a submission leaves, for either adapter. *)
Lemma upload_step (w : World) (capture : bool) (file : Blob) (files : list Blob)
    (worker : Tesseract.Worker) :
  enabled w (Upload capture (file :: files)) = true ->
  workerRef w = Some worker ->
  let w' := step w (Upload capture (file :: files)) in
  error (state w') = None /\
  text (state w') = "" /\
  image (state w') = Some (nextURL w) /\
  In (nextURL w) (objectURLs w') /\
  inFlight w' = (inFlight w ++ [(worker, file)])%list /\
  workerReady (state w') = workerReady (state w) /\
  copyButtonText (state w') = copyButtonText (state w).
Proof.
  intros En Href w'. subst w'. unfold step. rewrite En.
  destruct w as [s wr ir urls nu cb ct tm pi prs pbs fl].
  destruct s as [im tx er sg pg rdy cbt].
  cbn in Href. subst wr.
  destruct ir, im; cbn; repeat split; now left.
Qed.





(** ** C9: reset twice is reset once *)





(** ** C10: an empty result still ends in stage [done] *)

(** C10: when a recognition call resolves with the empty string, whichever
    call in flight it is, the stage becomes [done] and the text is the
    empty string; such a state is reached by a plain upload, so stage
    [done] does not imply a text. *)
Theorem empty_result_ends_done :
  (forall (w : World) (n : nat),
     enabled w (RecognizeSettled n (recognized "")) = true ->
     let w' := step w (RecognizeSettled n (recognized "")) in
     stage (state w') = done /\ text (state w') = "") /\
  (let w := run ready [Upload false [photo]; RecognizeSettled 0 (recognized "")] in
   stage (state w) = done /\ text (state w) = "") /\
  ~ (forall (nav : option Clipboard) (events : list Event),
       stage (state (run (mount nav) events)) = done ->
       text (state (run (mount nav) events)) <> "").
Proof.
  split; [|split].
  - intros w n En w'. subst w'. unfold step. rewrite En.
    cbn in En. unfold exec, handle.
    destruct (nth_error (inFlight w) n); [|discriminate]. split; reflexivity.
  - cbv zeta. split; reflexivity.
  - intros H.
    apply (H withClipboard
             [Logger initialized_api; InitSettled (Fulfilled 7) resolved resolved;
              Upload false [photo]; RecognizeSettled 0 (recognized "")]);
      reflexivity.
Qed.

Lemma empty_result_ends_done_witness :
  let w := step ready (Upload false [photo]) in
  enabled w (RecognizeSettled 0 (recognized "")) = true /\
  stage (state (step w (RecognizeSettled 0 (recognized "")))) = done /\
  text (state (step w (RecognizeSettled 0 (recognized "")))) = "".
Proof.
  cbv zeta. split; [reflexivity|].
  apply (proj1 empty_result_ends_done (step ready (Upload false [photo])) 0).
  reflexivity.
Defined.

(** * Further properties of the component *)

(** ** More invariants of runs *)

Lemma NoDup_revoked (url : ObjectURL) (urls : list ObjectURL) :
  NoDup urls -> NoDup (remove Nat.eq_dec url urls).
Proof.
  induction 1 as [|u rest Hnotin Hrest IH]; cbn; [constructor|].
  destruct (Nat.eq_dec url u); [exact IH|].
  constructor; [|exact IH].
  intros Hin. apply in_remove in Hin. tauto.
Qed.

Lemma input_attached (shown : bool) (input : option HTMLInputElement) :
  (if shown
   then match input with
        | Some el => Some el
        | None => Some {| value := ""; capture := None |}
        end
   else None) = None <-> shown = false.
Proof. destruct shown, input; split; congruence. Qed.

Ltac wired_done :=
  constructor; cbn in *; try apply input_attached; intros;
  repeat match goal with
         | H : ?a <> ?a |- _ => now elim H
         | H : _ /\ _ |- _ => destruct H
         | H : Some _ = Some _ |- _ => injection H as H; subst
         | H : In _ (dropNth _ _) |- _ => apply in_dropNth in H
         | H : In _ (_ ++ _) |- _ => apply in_app_or in H
         | H : _ \/ _ |- _ => destruct H; subst
         | |- _ /\ _ => split
         | |- _ <-> _ => split; intros
         | H : match ?x with Some _ => Some _ | None => Some _ end = None |- _ =>
             destruct x; discriminate
         | H : In _ (remove _ _ _) |- _ => apply in_remove in H; destruct H as [H _]
         end;
  cbn in *;
  repeat match goal with
         | H : _ \/ _ |- _ => destruct H; subst
         | H : False |- _ => destruct H
         end;
  cbn in *;
  try solve [ reflexivity | discriminate | congruence | tauto | auto
            | intuition congruence
            | intuition discriminate ].

Lemma step_wired (w : World) (e : Event) :
  Steady w -> Wired w -> Wired (step w e).
Proof.
  intros [Hsw Hsr Hsu Hsi] Hw.
  unfold step. destruct (enabled w e) eqn:En; [|exact Hw].
  destruct Hw as [Hi Hst Hb Hc Hr Ht Hsh Hn Hin].
  destruct w as [s wr ir urls nu cb ct tm pi prs pbs fl].
  destruct s as [im tx er sg pg rdy cbt].
  cbn in *.
  assert (Hfl : forall call, (fl ++ [call])%list <> [])
    by (intros call; destruct fl; discriminate).
  assert (Hfresh : forall old, NoDup (nu :: remove Nat.eq_dec old urls)).
  { intros old. apply NoDup_cons; [|now apply NoDup_revoked].
    intros Hnew. apply in_remove in Hnew. destruct Hnew as [Hnew _].
    apply Hsu in Hnew. lia. }
  assert (Hfresh' : NoDup (nu :: urls)).
  { apply NoDup_cons; [|assumption]. intros Hnew. apply Hsu in Hnew. lia. }
  destruct e; cbn in *.
  - wired_done.
  - subst pi. destruct (Hst eq_refl) as (-> & -> & -> & -> & -> & ->).
    assert (sg = initializing) by (now apply Hi). subst sg.
    destruct created, loaded, initialized; cbn; wired_done.
  - apply acquisitionEnabled_inv in En. cbn in En. destruct En as (-> & -> & ->).
    destruct wr as [worker|]; [|now elim (Hsw eq_refl)].
    destruct pi; [destruct (Hst eq_refl); discriminate|].
    destruct ir, files, im; cbn; wired_done.
  - apply acquisitionEnabled_inv in En. cbn in En. destruct En as (-> & -> & ->).
    destruct pi; [discriminate (proj1 Hi eq_refl)|].
    destruct cb as [[[] ?]|]; cbn; wired_done.
  - destruct (nth_error prs n) as [closure|] eqn:Hnth; [|discriminate].
    assert (rdy = true)
      by (apply Hsr; destruct prs; [destruct n; discriminate|reflexivity]).
    subst rdy.
    destruct wr as [worker|]; [|now elim (Hsw eq_refl)].
    destruct pi; [destruct (Hst eq_refl); discriminate|].
    unfold exec, handle. cbn. rewrite Hnth.
    unfold bind, setPendingReads, modify. cbn.
    match goal with |- context [handlePaste_resumed closure read ?W] =>
      destruct (handlePaste_resumed_cases closure read W) as [[msg ->]|[promise ->]]
    end.
    + cbn. wired_done.
    + unfold getTypeCalled, setPendingBlobs, modify. cbn. wired_done.
  - destruct (nth_error pbs n) as [[closure settled]|] eqn:Hnth; [|discriminate].
    assert (rdy = true)
      by (apply Hsr; destruct prs, pbs; try reflexivity; destruct n; discriminate).
    subst rdy.
    destruct wr as [worker|]; [|now elim (Hsw eq_refl)].
    destruct pi; [destruct (Hst eq_refl); discriminate|].
    unfold exec, handle. cbn. rewrite Hnth.
    unfold bind, setPendingBlobs, modify. cbn.
    match goal with |- context [handlePaste_withBlob closure settled ?W] =>
      destruct (handlePaste_withBlob_cases closure settled W) as [[msg ->]|[blob ->]]
    end.
    + cbn. wired_done.
    + unfold processImage, bind, getWorkerRef. cbn.
      destruct (image closure); cbn; wired_done.
  - destruct (nth_error fl n) as [call|] eqn:Hnth; [|discriminate].
    assert (Hne : fl <> []) by (intros ->; destruct n; discriminate).
    destruct pi; [destruct (Hst eq_refl) as (_ & ? & _); congruence|].
    unfold exec, handle. cbn. rewrite Hnth.
    destruct result; cbn; wired_done.
  - apply resultShown_inv in En. cbn in En.
    destruct pi; [destruct (Hst eq_refl) as (_ & _ & ? & _); congruence|].
    destruct im, ir; cbn; wired_done; now apply NoDup_revoked.
  - destruct cb; cbn; wired_done.
  - destruct ct; [discriminate|]. cbn. wired_done.
Qed.

Ltac tidy_done :=
  constructor; cbn in *; intros;
  repeat match goal with
         | H : ?a <> ?a |- _ => now elim H
         | H : _ /\ _ |- _ => destruct H
         | |- _ /\ _ => split
         end;
  try solve [ reflexivity | discriminate | congruence | tauto | auto
            | intuition congruence | intuition discriminate ].

Lemma step_tidy (w : World) (e : Event) :
  Orderly w -> Tidy w ->
  (pastePending w = false \/ startsAcquisition e = false) ->
  Tidy (step w e).
Proof.
  intros [He Hf Hi Hr Hb Hu] Ht Hseq.
  unfold step. destruct (enabled w e) eqn:En; [|exact Ht].
  destruct Ht as [Htx Hdn Hfl].
  destruct w as [s wr ir urls nu cb ct tm pi prs pbs fl].
  destruct s as [im tx er sg pg rdy cbt].
  cbn in *.
  destruct e; cbn in *.
  - tidy_done.
  - subst pi. destruct (Hi eq_refl) as (-> & -> & _).
    destruct created, loaded, initialized; cbn; tidy_done.
  - apply acquisitionEnabled_inv in En. cbn in En. destruct En as (-> & -> & ->).
    destruct ir, files, wr, im; cbn; tidy_done.
  - apply acquisitionEnabled_inv in En. cbn in En. destruct En as (-> & -> & ->).
    destruct cb as [[[] ?]|]; cbn; tidy_done.
  - destruct (nth_error prs n) as [closure|] eqn:Hn; [|discriminate].
    assert (Hne : prs <> []) by (intros ->; destruct n; discriminate).
    destruct (Hr Hne) as (-> & -> & -> & c & -> & Him).
    apply nth_error_one in Hn as (-> & ->).
    unfold exec, bind, setPendingReads, modify, dropNth. cbn.
    match goal with |- context [handlePaste_resumed c read ?W] =>
      destruct (handlePaste_resumed_cases c read W) as [[msg ->]|[promise ->]]
    end.
    + cbn. tidy_done.
    + unfold getTypeCalled, setPendingBlobs, modify. cbn. tidy_done.
  - destruct (nth_error pbs n) as [[closure settled]|] eqn:Hn; [|discriminate].
    assert (Hne : pbs <> []) by (intros ->; destruct n; discriminate).
    destruct (Hb Hne) as (-> & -> & -> & c & s & -> & Him).
    apply nth_error_one in Hn as (-> & [= -> ->]).
    unfold exec, bind, setPendingBlobs, modify, dropNth. cbn.
    match goal with |- context [handlePaste_withBlob c s ?W] =>
      destruct (handlePaste_withBlob_cases c s W) as [[msg ->]|[blob ->]]
    end.
    + cbn. tidy_done.
    + unfold processImage, bind, getWorkerRef. cbn.
      destruct wr; cbn; [|tidy_done].
      destruct (image c); cbn; tidy_done.
  - destruct (nth_error fl n) as [call|] eqn:Hn; [|discriminate].
    assert (Hne : fl <> []) by (intros ->; destruct n; discriminate).
    destruct (Hf Hne) as (Hlen & -> & -> & -> & _ & ->).
    destruct fl as [|call0 [|]]; try discriminate.
    apply nth_error_one in Hn as (-> & ->).
    specialize (Hfl ltac:(discriminate)).
    destruct result; cbn; tidy_done.
  - apply resultShown_inv in En. cbn in En.
    destruct fl; [|destruct (Hf ltac:(discriminate)) as (_ & _ & ? & _); congruence].
    destruct im, ir; cbn; tidy_done.
  - destruct cb; cbn; tidy_done.
  - destruct ct; [discriminate|]. cbn. tidy_done.
Qed.

Lemma step_copied (w0 w : World) (e : Event) :
  Copied w0 w -> Copied w0 (step w e).
Proof.
  intros Hc.
  unfold step. destruct (enabled w e) eqn:En; [|exact Hc].
  destruct Hc as [Hl Hcb].
  destruct w as [s wr ir urls nu cb ct tm pi prs pbs fl].
  destruct s as [im tx er sg pg rdy cbt].
  cbn in *.
  destruct e; cbn in *.
  - constructor; assumption.
  - destruct created, loaded, initialized; cbn; constructor; assumption.
  - destruct ir, files, wr, im; cbn; constructor; assumption.
  - destruct cb as [[[] ?]|]; cbn; constructor; assumption.
  - destruct (nth_error prs n) as [closure|] eqn:Hn; [|discriminate].
    unfold exec, handle. cbn. rewrite Hn.
    unfold bind, setPendingReads, modify. cbn.
    match goal with |- context [handlePaste_resumed closure read ?W] =>
      destruct (handlePaste_resumed_cases closure read W) as [[msg ->]|[promise ->]]
    end.
    + cbn. constructor; assumption.
    + unfold getTypeCalled, setPendingBlobs, modify. cbn. constructor; assumption.
  - destruct (nth_error pbs n) as [[closure settled]|] eqn:Hn; [|discriminate].
    unfold exec, handle. cbn. rewrite Hn.
    unfold bind, setPendingBlobs, modify. cbn.
    match goal with |- context [handlePaste_withBlob closure settled ?W] =>
      destruct (handlePaste_withBlob_cases closure settled W) as [[msg ->]|[blob ->]]
    end.
    + cbn. constructor; assumption.
    + unfold processImage, bind, getWorkerRef. cbn.
      destruct wr; cbn; [|constructor; assumption].
      destruct (image closure); cbn; constructor; assumption.
  - destruct (nth_error fl n) as [call|] eqn:Hn; [|discriminate].
    unfold exec, handle. cbn. rewrite Hn.
    destruct result; cbn; constructor; assumption.
  - destruct im, ir; cbn; constructor; cbn; try assumption; now left.
  - apply resultShown_inv in En. cbn in En.
    destruct cb as [c|]; cbn; [|constructor; assumption].
    constructor; cbn; [right; split; [reflexivity|discriminate]|].
    destruct (clipboard w0) as [c0|]; [|exact Hcb].
    destruct Hcb as (Hread & added & Hw & Hall).
    split; [exact Hread|].
    exists (added ++ [tx])%list. split.
    + now rewrite Hw, app_assoc.
    + apply Forall_app. split; [exact Hall|]. now constructor.
  - destruct ct; [discriminate|]. cbn. constructor; cbn; [now left|assumption].
Qed.

Lemma mount_wired (nav : option Clipboard) : Wired (mount nav).
Proof.
  constructor; cbn; intros; try discriminate; try tauto; auto;
    try (split; intros; try discriminate; reflexivity).
  - split; [discriminate|intros H; now elim H].
  - constructor.
Qed.

Lemma run_wired (events : list Event) :
  forall w, Steady w -> Wired w -> Wired (run w events).
Proof.
  induction events as [|e rest IH]; intros w Hs Hw; [exact Hw|].
  apply IH; [now apply step_steady|now apply step_wired].
Qed.

Lemma mount_tidy (nav : option Clipboard) : Tidy (mount nav).
Proof. constructor; cbn; intros; try discriminate; try tauto. Qed.

Lemma oneAtATime_now (w : World) (e : Event) (rest : list Event) :
  oneAtATime w (e :: rest) = true ->
  (pastePending w = false \/ startsAcquisition e = false) /\
  oneAtATime (step w e) rest = true.
Proof.
  cbn. intros H. apply andb_true_iff in H as [Hnow Hlater].
  split; [|exact Hlater].
  destruct (pastePending w); [right|now left]. now apply negb_true_iff.
Qed.

Lemma run_tidy (events : list Event) :
  forall w, Orderly w -> Tidy w -> oneAtATime w events = true ->
            Tidy (run w events).
Proof.
  induction events as [|e rest IH]; intros w Ho Ht Hseq; [exact Ht|].
  apply oneAtATime_now in Hseq as [Hcond Hlater].
  apply IH; [now apply step_orderly|now apply step_tidy|exact Hlater].
Qed.

Lemma mount_copied (nav : option Clipboard) : Copied (mount nav) (mount nav).
Proof.
  constructor; cbn; [now left|].
  destruct nav as [c|]; [|exact I].
  split; [reflexivity|]. exists []. split; [now rewrite app_nil_r|constructor].
Qed.

Lemma run_copied (w0 : World) (events : list Event) :
  forall w, Copied w0 w -> Copied w0 (run w events).
Proof.
  induction events as [|e rest IH]; intros w Hc; [exact Hc|].
  apply IH. now apply step_copied.
Qed.

(** A world whose file input is attached as the page shows it is left
    alone by [render]. *)
Lemma render_attached (w : World) :
  (inputRef w = None <-> acquisitionShown (state w) = false) -> render w = w.
Proof.
  destruct w as [s wr ir urls nu cb ct tm pi prs pbs fl]. cbn.
  unfold render, exec. cbn. intros [Hnone Hhidden].
  destruct (acquisitionShown s), ir as [el|]; try reflexivity.
  - discriminate (Hnone eq_refl).
  - discriminate (Hhidden eq_refl).
Qed.

(** ** Starting the engine *)

Lemma step_broken (w : World) (e : Event) : Broken w -> Broken (step w e).
Proof.
  intros Hb. unfold step. destruct (enabled w e) eqn:En; [|exact Hb].
  destruct Hb as [Hw Hr Hs Ht He Hi Hu Hc Hp Hn Hm].
  apply pastePending_false in Hp as (Hp & Hq).
  destruct w as [s wr ir urls nu cb ct tm pi prs pbs fl].
  destruct s as [im tx er sg pg rdy cbt].
  cbn in *. subst.
  destruct e; cbn in *; try discriminate.
  - constructor; reflexivity.
  - destruct n; discriminate.
  - destruct n; discriminate.
  - destruct n; discriminate.
  - destruct ct; [discriminate|]. constructor; reflexivity.
Qed.

Lemma run_broken (events : list Event) :
  forall w, Broken w -> Broken (run w events).
Proof.
  induction events as [|e rest IH]; intros w Hb; [exact Hb|].
  apply IH. now apply step_broken.
Qed.

(** X1. When the three awaited calls of [initializeWorker] have settled,
    the stage is [idle] again.  If all three were fulfilled the worker is
    stored, the engine is marked ready and the acquisition buttons are
    enabled; if any of them was rejected -- also [loadLanguage] or
    [initialize] after a worker had been created -- no worker is stored, the
    start-up message is shown and the buttons stay disabled. *)
Theorem engine_start_settled :
  forall (nav : option Clipboard) (events : list Event)
         (created : Settled Tesseract.Worker) (loaded initialized : Settled unit),
    let w := run (mount nav) events in
    enabled w (InitSettled created loaded initialized) = true ->
    let w' := step w (InitSettled created loaded initialized) in
    stage (state w') = idle /\
    pendingInit w' = false /\
    text (state w') = "" /\
    inFlight w' = [] /\
    match engineStarted created loaded initialized with
    | Some worker =>
        workerRef w' = Some worker /\
        workerReady (state w') = true /\
        error (state w') = None /\
        acquisitionButtons (page (state w')) = Some false
    | None =>
        workerRef w' = None /\
        workerReady (state w') = false /\
        error (state w')
          = Some "Tesseract.js konnte nicht initialisiert werden. Bitte laden Sie die Seite neu." /\
        acquisitionButtons (page (state w')) = Some true
    end.
Proof.
  intros nav events created loaded initialized w En w'. subst w'.
  pose proof (run_wired events _ (mount_steady nav) (mount_wired nav)) as Hw.
  fold w in Hw. destruct Hw as [_ Hst _ _ Hr _ _ _ _].
  unfold step. rewrite En. cbn in En. specialize (Hst En).
  destruct Hst as (Hw & Hf & Ht & He & _).
  assert (Hno : workerReady (state w) = false).
  { destruct (workerReady (state w)); [|reflexivity].
    elim (proj1 Hr eq_refl). exact Hw. }
  destruct w as [s wr ir urls nu cb ct tm pi prs pbs fl].
  destruct s as [im tx er sg pg rdy cbt].
  cbn in *. subst.
  destruct created, loaded, initialized; cbn; repeat split; reflexivity.
Qed.

Lemma engine_start_settled_witness :
  let w := run (mount withClipboard) [Logger initialized_api] in
  enabled w (InitSettled (Fulfilled 7) (Rejected engineFailure) resolved) = true /\
  workerRef (step w (InitSettled (Fulfilled 7) (Rejected engineFailure) resolved)) = None /\
  acquisitionButtons
    (page (state (step w (InitSettled (Fulfilled 7) (Rejected engineFailure) resolved))))
    = Some true.
Proof.
  cbv zeta. split; [reflexivity|].
  pose proof (engine_start_settled withClipboard [Logger initialized_api]
                (Fulfilled 7) (Rejected engineFailure) resolved) as H.
  cbv zeta in H. specialize (H eq_refl).
  destruct H as (_ & _ & _ & _ & Hworker & _ & _ & Hbuttons).
  split; [exact Hworker|exact Hbuttons].
Defined.

(** X2. A failed start is final: whatever happens afterwards, no worker is
    stored, the engine is never marked ready, the start-up message stays,
    no image is accepted, no object URL is created, no recognition call is
    made, no action of the user is enabled, and unmounting terminates
    nothing. *)
Theorem failed_start_is_final :
  forall (nav : option Clipboard) (events : list Event)
         (created : Settled Tesseract.Worker) (loaded initialized : Settled unit)
         (later : list Event),
    let w := run (mount nav) events in
    enabled w (InitSettled created loaded initialized) = true ->
    engineStarted created loaded initialized = None ->
    let w' := run (step w (InitSettled created loaded initialized)) later in
    workerRef w' = None /\
    workerReady (state w') = false /\
    stage (state w') = idle /\
    error (state w')
      = Some "Tesseract.js konnte nicht initialisiert werden. Bitte laden Sie die Seite neu." /\
    text (state w') = "" /\
    image (state w') = None /\
    objectURLs w' = [] /\
    inFlight w' = [] /\
    (forall e, userEvent e = true -> enabled w' e = false) /\
    terminated (unmount w') = [].
Proof.
  intros nav events created loaded initialized later w En Hfail w'.
  assert (Hb : Broken (step w (InitSettled created loaded initialized))).
  { pose proof (run_wired events _ (mount_steady nav) (mount_wired nav)) as Hw.
    pose proof (run_steady events _ (mount_steady nav)) as Hs.
    fold w in Hw, Hs.
    destruct Hw as [_ Hst _ _ Hr Htm _ _ _]. destruct Hs as [_ Hreads _ _].
    unfold step. rewrite En. cbn in En. specialize (Hst En).
    destruct Hst as (Hw & Hf & Ht & He & Hi & Hu).
    assert (Hno : workerReady (state w) = false).
    { destruct (workerReady (state w)); [|reflexivity].
      elim (proj1 Hr eq_refl). exact Hw. }
    assert (Hp : pastePending w = false).
    { destruct (pastePending w) eqn:Hp; [|reflexivity].
      rewrite (Hreads eq_refl) in Hno. discriminate. }
    apply pastePending_false in Hp as (Hp & Hq).
    destruct w as [s wr ir urls nu cb ct tm pi prs pbs fl].
    destruct s as [im tx er sg pg rdy cbt].
    cbn in *. subst.
    destruct created, loaded, initialized; try discriminate;
      cbn; constructor; reflexivity. }
  apply (run_broken later) in Hb. fold w' in Hb.
  destruct Hb as [Hw Hr Hs Ht He Hi Hu Hc Hp Hn Hm].
  repeat split; try assumption.
  - intros e He'. destruct e; try discriminate; cbn;
      unfold acquisitionEnabled, acquisitionDisabled, resultShown, truthy;
      rewrite ?Hr, ?Ht; cbn; now rewrite ?andb_false_r.
  - unfold unmount, exec, cleanup, bind, getWorkerRef. rewrite Hw. exact Hm.
Qed.

Lemma failed_start_is_final_witness :
  let w := run (mount withClipboard) [Logger initialized_api] in
  let w' := run (step w (InitSettled (Rejected engineFailure) resolved resolved))
                [PasteClick; Upload false [photo]] in
  enabled w (InitSettled (Rejected engineFailure) resolved resolved) = true /\
  engineStarted (Rejected engineFailure) resolved resolved = None /\
  inFlight w' = [] /\ objectURLs w' = [].
Proof.
  cbv zeta. split; [reflexivity|]. split; [reflexivity|].
  pose proof (failed_start_is_final withClipboard [Logger initialized_api]
                (Rejected engineFailure) resolved resolved
                [PasteClick; Upload false [photo]]) as H.
  cbv zeta in H. specialize (H eq_refl eq_refl).
  destruct H as (_ & _ & _ & _ & _ & _ & Hurls & Hcalls & _).
  split; [exact Hcalls|exact Hurls].
Defined.

(** ** Stages, pending calls and the engine handle *)




(** X4. Along every run there is one engine handle: the engine is marked
    ready exactly when [workerRef] holds a worker, every recognition call
    in flight was made on that worker, and nothing is terminated while the
    component is mounted.  Unmounting terminates that worker, once, and
    neither awaits nor cancels the calls still in flight. *)
Theorem one_engine_handle :
  forall (nav : option Clipboard) (events : list Event),
    let w := run (mount nav) events in
    (workerReady (state w) = true <-> workerRef w <> None) /\
    (forall worker imageFile,
       In (worker, imageFile) (inFlight w) -> workerRef w = Some worker) /\
    terminated w = [] /\
    terminated (unmount w) = match workerRef w with
                             | Some worker => [worker]
                             | None => []
                             end /\
    inFlight (unmount w) = inFlight w.
Proof.
  intros nav events w.
  pose proof (run_wired events _ (mount_steady nav) (mount_wired nav)) as Hw.
  fold w in Hw. destruct Hw as [_ _ _ Hc Hr Ht _ _ _].
  split; [exact Hr|]. split; [|split; [exact Ht|]].
  - intros worker imageFile Hin. apply (Hc _ Hin).
  - unfold unmount, exec, cleanup, bind, getWorkerRef.
    destruct (workerRef w); cbn; rewrite Ht; split; reflexivity.
Qed.

Lemma one_engine_handle_witness :
  let w := run (mount withClipboard)
               [InitSettled (Fulfilled 7) resolved resolved; Upload false [photo]] in
  In (7, photo) (inFlight w) /\ workerRef w = Some 7.
Proof.
  cbv zeta.
  assert (Hin : In (7, photo)
                  (inFlight (run (mount withClipboard)
                                 [InitSettled (Fulfilled 7) resolved resolved;
                                  Upload false [photo]]))) by (now left).
  split; [exact Hin|].
  exact (proj1 (proj2 (one_engine_handle withClipboard
           [InitSettled (Fulfilled 7) resolved resolved; Upload false [photo]]))
           7 photo Hin).
Defined.

(** X5. Along every run, overlapping acquisitions included, the URL in
    [image] is a registered object URL: the preview never points at a URL
    that has been revoked.  No URL is registered twice, and every
    registered URL was handed out before the next one to be created. *)
Theorem preview_is_registered :
  forall (nav : option Clipboard) (events : list Event),
    let w := run (mount nav) events in
    (forall url, imagePreview (page (state w)) = Some url -> In url (objectURLs w)) /\
    NoDup (objectURLs w) /\
    (forall url, In url (objectURLs w) -> url < nextURL w).
Proof.
  intros nav events w.
  pose proof (run_wired events _ (mount_steady nav) (mount_wired nav)) as Hw.
  pose proof (run_steady events _ (mount_steady nav)) as Hs.
  fold w in Hw, Hs.
  destruct Hw as [_ _ _ _ _ _ Hsh Hn _]. destruct Hs as [_ _ Hu _].
  split; [exact Hsh|]. split; [exact Hn|exact Hu].
Qed.

Lemma preview_is_registered_witness :
  let w := run (mount withClipboard)
               [InitSettled (Fulfilled 7) resolved resolved; PasteClick;
                Upload false [photo];
                ClipboardSettled 0 (Fulfilled [screenshotItem]); GetTypeSettled 0] in
  imagePreview (page (state w)) = Some 1 /\ In 1 (objectURLs w).
Proof.
  cbv zeta.
  assert (Hshown : imagePreview (page (state (run (mount withClipboard)
               [InitSettled (Fulfilled 7) resolved resolved; PasteClick;
                Upload false [photo];
                ClipboardSettled 0 (Fulfilled [screenshotItem]); GetTypeSettled 0]))) = Some 1)
    by reflexivity.
  split; [exact Hshown|].
  exact (proj1 (preview_is_registered withClipboard
           [InitSettled (Fulfilled 7) resolved resolved; PasteClick;
            Upload false [photo];
            ClipboardSettled 0 (Fulfilled [screenshotItem]); GetTypeSettled 0]) 1 Hshown).
Defined.


(** ** Runs without overlapping acquisitions *)

(** X6 is [one_handle_without_overlap]: in a run in which no upload or
    paste is started while a paste is pending, the object URL of the
    displayed image is the only one registered. *)
Lemma one_handle_without_overlap_witness :
  let events := [InitSettled (Fulfilled 7) resolved resolved;
                 Upload false [photo];
                 RecognizeSettled 0 (Rejected engineFailure);
                 PasteClick;
                 ClipboardSettled 0 (Fulfilled [screenshotItem]);
                 GetTypeSettled 0] in
  oneAtATime (mount withClipboard) events = true /\
  image (state (run (mount withClipboard) events)) = Some 1 /\
  objectURLs (run (mount withClipboard) events) = [1].
Proof.
  cbv zeta. split; [reflexivity|]. split; [reflexivity|].
  pose proof (one_handle_without_overlap withClipboard
                [InitSettled (Fulfilled 7) resolved resolved;
                 Upload false [photo];
                 RecognizeSettled 0 (Rejected engineFailure);
                 PasteClick;
                 ClipboardSettled 0 (Fulfilled [screenshotItem]);
                 GetTypeSettled 0] eq_refl) as H.
  exact H.
Defined.

(** X7. In a run in which no upload or paste is started while a paste is
    pending (its clipboard read or its [getType] call has not settled) an
    error banner never blocks the page: whenever a message is displayed,
    the three acquisition buttons are on the page, enabled if the engine is
    ready, and neither the progress bar nor the result view is shown. *)
Theorem error_leaves_retry_open :
  forall (nav : option Clipboard) (events : list Event),
    oneAtATime (mount nav) events = true ->
    let s := state (run (mount nav) events) in
    errorBanner (page s) <> None ->
    acquisitionButtons (page s) = Some (negb (workerReady s)) /\
    progressIndicator (page s) = None /\
    resultView (page s) = None.
Proof.
  intros nav events Hseq s Hbanner.
  destruct (run_orderly events _ (mount_orderly nav) Hseq) as [He _ _ _ _ _].
  fold s in He.
  assert (Herr : error s <> None).
  { intros Hnone. apply Hbanner. unfold page. cbn. now rewrite Hnone. }
  destruct (He Herr) as (Hstage & Htext).
  unfold page, acquisitionShown, acquisitionDisabled, isProcessing. cbn.
  rewrite Hstage, Htext. cbn. rewrite orb_false_r. repeat split.
Qed.

Lemma error_leaves_retry_open_witness :
  let events := [InitSettled (Fulfilled 7) resolved resolved;
                 PasteClick;
                 ClipboardSettled 0 (Fulfilled [textItem])] in
  oneAtATime (mount withClipboard) events = true /\
  errorBanner (page (state (run (mount withClipboard) events)))
    = Some "Kein Bild in der Zwischenablage gefunden." /\
  acquisitionButtons (page (state (run (mount withClipboard) events))) = Some false.
Proof.
  cbv zeta. split; [reflexivity|]. split; [reflexivity|].
  pose proof (error_leaves_retry_open withClipboard
                [InitSettled (Fulfilled 7) resolved resolved;
                 PasteClick;
                 ClipboardSettled 0 (Fulfilled [textItem])] eq_refl) as H.
  cbv zeta in H.
  exact (proj1 (H ltac:(discriminate))).
Defined.

(** X8. In a run in which no upload or paste is started while a paste is
    pending (its clipboard read or its [getType] call has not settled) a
    recognized text is present only in stage [done], and stage [done]
    always comes with a preview image; so whenever the result view is on
    the page the preview is too, and neither the acquisition buttons nor an
    error banner are. *)
Theorem text_only_when_done :
  forall (nav : option Clipboard) (events : list Event),
    oneAtATime (mount nav) events = true ->
    let s := state (run (mount nav) events) in
    (text s <> "" -> stage s = done) /\
    (stage s = done -> image s <> None) /\
    (resultView (page s) <> None ->
     imagePreview (page s) <> None /\
     acquisitionButtons (page s) = None /\
     errorBanner (page s) = None).
Proof.
  intros nav events Hseq s.
  pose proof (run_orderly events _ (mount_orderly nav) Hseq) as Ho.
  pose proof (run_tidy events _ (mount_orderly nav) (mount_tidy nav) Hseq) as Ht.
  destruct Ho as [He _ _ _ _ _]. destruct Ht as [Htx Hdn _]. fold s in He, Htx, Hdn.
  split; [exact Htx|]. split; [exact Hdn|].
  unfold page. cbn. intros Hres.
  assert (Htext : text s <> "").
  { intros Hnone. apply Hres. unfold truthy. now rewrite Hnone. }
  specialize (Htx Htext). split; [now apply Hdn|].
  unfold acquisitionShown. rewrite Htx. cbn. split; [reflexivity|].
  destruct (error s) eqn:Herr; [|reflexivity].
  destruct He as (Hidle & _); [discriminate|]. congruence.
Qed.

Lemma text_only_when_done_witness :
  let events := [InitSettled (Fulfilled 7) resolved resolved;
                 Upload true [photo];
                 RecognizeSettled 0 (recognized "Hallo Welt")] in
  oneAtATime (mount withClipboard) events = true /\
  text (state (run (mount withClipboard) events)) <> "" /\
  stage (state (run (mount withClipboard) events)) = done.
Proof.
  cbv zeta. split; [reflexivity|].
  assert (Htext : text (state (run (mount withClipboard)
                    [InitSettled (Fulfilled 7) resolved resolved;
                     Upload true [photo];
                     RecognizeSettled 0 (recognized "Hallo Welt")])) <> "")
    by discriminate.
  split; [exact Htext|].
  exact (proj1 (text_only_when_done withClipboard
           [InitSettled (Fulfilled 7) resolved resolved;
            Upload true [photo];
            RecognizeSettled 0 (recognized "Hallo Welt")] eq_refl) Htext).
Defined.

(** ** The file input *)

(** X9. [handleFileSelect] looks at the first selected file only: a
    selection of several files has the effect of selecting the first one,
    and a change event without a file (the picker was cancelled) changes
    neither the state nor the object URLs and starts no recognition. *)
Theorem upload_takes_first_file :
  forall (w : World) (capture : bool),
    (let w' := step w (Upload capture []) in
     state w' = state w /\ objectURLs w' = objectURLs w /\
     inFlight w' = inFlight w /\ workerRef w' = workerRef w) /\
    (forall file others,
       step w (Upload capture (file :: others)) = step w (Upload capture [file])).
Proof.
  intros w capture. split.
  - cbv zeta. unfold step.
    destruct (enabled w (Upload capture [])); [|repeat split].
    destruct w as [s wr ir urls nu cb ct tm pi prs pbs fl].
    destruct ir; repeat split.
  - intros file others. unfold step. cbn [enabled].
    destruct (acquisitionEnabled (state w)); [|reflexivity].
    destruct w as [s wr ir urls nu cb ct tm pi prs pbs fl].
    destruct ir; reflexivity.
Qed.

(** ** Progress messages *)

(** X10. A progress message of the engine replaces status and fraction
    together by those of the message and changes nothing else, at any point
    of any run; in particular it enables and disables nothing. *)
Theorem progress_relay :
  forall (nav : option Clipboard) (events : list Event) (m : Tesseract.LoggerMessage),
    let w := run (mount nav) events in
    let w' := step w (Logger m) in
    w' = exec (setProgress {| Progress.status := Tesseract.status m;
                              Progress.progress := Tesseract.progress m |}) w /\
    progress (state w') = {| Progress.status := Tesseract.status m;
                             Progress.progress := Tesseract.progress m |} /\
    (forall e, enabled w' e = enabled w e).
Proof.
  intros nav events m w w'. subst w'.
  pose proof (run_wired events _ (mount_steady nav) (mount_wired nav)) as Hw.
  fold w in Hw. destruct Hw as [_ _ _ _ _ _ _ _ Hin].
  assert (Hstep : step w (Logger m)
                  = exec (setProgress {| Progress.status := Tesseract.status m;
                                         Progress.progress := Tesseract.progress m |}) w).
  { unfold step. cbn [enabled].
    change (exec (handle (Logger m)) w) with (exec (updateProgress m) w).
    unfold updateProgress. apply render_attached. exact Hin. }
  rewrite Hstep. split; [reflexivity|]. split; [reflexivity|].
  intros e. destruct w as [s wr ir urls nu cb ct tm pi prs pbs fl].
  destruct e; reflexivity.
Qed.

(** ** The copy button *)

(** X11. [handleCopy] writes the text of its render to the clipboard, puts
    "Kopiert!" on the button and sets one timer; the rest of the state, the
    object URLs and the calls in flight are not touched.  Where
    [navigator.clipboard] is undefined it throws a [TypeError] before doing
    any of this: the label does not change and no timer is set. *)
Theorem handleCopy_effect :
  (forall (closure : AppState) (w : World) (c : Clipboard),
     clipboard w = Some c ->
     let w' := exec (handleCopy closure) w in
     outcome (handleCopy closure) w = Fulfilled tt /\
     clipboard w' = Some {| hasRead := hasRead c;
                            written := (written c ++ [text closure])%list |} /\
     copyButtonText (state w') = "Kopiert!" /\
     copyTimers w' = S (copyTimers w) /\
     text (state w') = text (state w) /\
     stage (state w') = stage (state w) /\
     error (state w') = error (state w) /\
     image (state w') = image (state w) /\
     objectURLs w' = objectURLs w /\
     inFlight w' = inFlight w) /\
  (forall (closure : AppState) (w : World),
     clipboard w = None ->
     handleCopy closure w
       = (w, Rejected {| instanceofError := true; name := "TypeError" |})).
Proof.
  split.
  - intros closure w c Hc w'. subst w'.
    unfold outcome, exec, handleCopy, writeText, bind, getClipboard. rewrite Hc.
    repeat split.
  - intros closure w Hc.
    unfold handleCopy, writeText, bind, getClipboard. now rewrite Hc.
Qed.

Lemma handleCopy_effect_witness :
  let w := run (mount withClipboard)
               [InitSettled (Fulfilled 7) resolved resolved;
                Upload false [photo];
                RecognizeSettled 0 (recognized "Hallo Welt")] in
  clipboard w = withClipboard /\
  clipboard (exec (handleCopy (state w)) w)
    = Some {| hasRead := true; written := ["Hallo Welt"] |} /\
  handleCopy initialState (mount None)
    = (mount None, Rejected {| instanceofError := true; name := "TypeError" |}).
Proof.
  cbv zeta. split; [reflexivity|]. split.
  - exact (proj1 (proj2 (proj1 handleCopy_effect
             (state (run (mount withClipboard)
                         [InitSettled (Fulfilled 7) resolved resolved;
                          Upload false [photo];
                          RecognizeSettled 0 (recognized "Hallo Welt")]))
             (run (mount withClipboard)
                  [InitSettled (Fulfilled 7) resolved resolved;
                   Upload false [photo];
                   RecognizeSettled 0 (recognized "Hallo Welt")])
             {| hasRead := true; written := [] |} eq_refl))).
  - exact (proj2 handleCopy_effect initialState (mount None) eq_refl).
Defined.

(** X12. Along every run the copy button reads "Kopieren" or "Kopiert!",
    and "Kopiert!" only while a timer that puts the label back is still
    set.  The clipboard object is never replaced, and every string the
    component has written to it is non-empty: the copy button is on the
    page only next to a text. *)
Theorem copy_label_reverts :
  forall (nav : option Clipboard) (events : list Event),
    let w := run (mount nav) events in
    (copyButtonText (state w) = "Kopieren" \/
     (copyButtonText (state w) = "Kopiert!" /\ copyTimers w <> 0)) /\
    (copyTimers w = 0 -> copyButtonText (state w) = "Kopieren") /\
    (nav = None -> clipboard w = None) /\
    (forall c0, nav = Some c0 ->
       exists added,
         clipboard w = Some {| hasRead := hasRead c0;
                               written := (written c0 ++ added)%list |} /\
         Forall (fun s => s <> "") added).
Proof.
  intros nav events w.
  destruct (run_copied (mount nav) events _ (mount_copied nav)) as [Hl Hc].
  fold w in Hl, Hc. cbn in Hc.
  split; [exact Hl|]. split; [|split].
  - intros Hzero. destruct Hl as [Hl|[_ Hl]]; [exact Hl|now elim Hl].
  - intros ->. now destruct (clipboard w).
  - intros c0 ->. destruct (clipboard w) as [c|]; [|now elim Hc].
    destruct Hc as (Hread & added & Hw & Hall).
    exists added. split; [|exact Hall].
    destruct c as [r wr]. cbn in *. now subst.
Qed.

Lemma copy_label_reverts_witness :
  let events := [InitSettled (Fulfilled 7) resolved resolved;
                 Upload false [photo];
                 RecognizeSettled 0 (recognized "Hallo Welt");
                 CopyClick; CopyClick; CopyTimeout; CopyTimeout] in
  copyTimers (run (mount withClipboard) events) = 0 /\
  copyButtonText (state (run (mount withClipboard) events)) = "Kopieren".
Proof.
  cbv zeta. split; [reflexivity|].
  pose proof (copy_label_reverts withClipboard
           [InitSettled (Fulfilled 7) resolved resolved;
            Upload false [photo];
            RecognizeSettled 0 (recognized "Hallo Welt");
            CopyClick; CopyClick; CopyTimeout; CopyTimeout]) as H.
  cbv zeta in H. destruct H as (_ & H & _).
  exact (H eq_refl).
Defined.

(** ** Other failures of the clipboard adapter *)

Lemma handlePaste_withBlob_rejected (closure : AppState) (err : JsError) (w : World) :
  handlePaste_withBlob closure (Rejected err) w
    = setError
        (Some (if instanceofError err && (name err =? "NotAllowedError")
               then "Zugriff auf die Zwischenablage wurde verweigert."
               else "Fehler beim Einf端gen aus der Zwischenablage.")) w.
Proof.
  unfold handlePaste_withBlob, try_catch, bind, await, handlePaste_catch.
  now destruct (instanceofError err && (name err =? "NotAllowedError")).
Qed.

Lemma dropNth_last {A : Type} (l : list A) (x : A) :
  dropNth (length l) (l ++ [x]) = l.
Proof.
  unfold dropNth.
  rewrite firstn_app, Nat.sub_diag, firstn_all, skipn_all2
    by (rewrite length_app; cbn; lia).
  cbn. now rewrite !app_nil_r.
Qed.

(** X13. Every rejection that [handlePaste] catches and that is not an
    [Error] named [NotAllowedError] is reported with the fourth, general
    message.  This includes a rejected [getType]: the picture of the first
    item that offers an image type is the only one asked for, whatever
    items follow it, so when that call rejects, an error is reported
    although a later item may hold a picture too; nothing is submitted and
    no object URL is created. *)
Theorem paste_other_failures :
  (forall closure err w,
     instanceofError err && (name err =? "NotAllowedError") = false ->
     handlePaste_resumed closure (Rejected err) w
       = setError (Some "Fehler beim Einf端gen aus der Zwischenablage.") w) /\
  (forall closure before item after imageType w,
     (forall other, In other before ->
        forall type, In type (types other) -> String.prefix "image/" type = false) ->
     find (fun type => String.prefix "image/" type) (types item) = Some imageType ->
     handlePaste_resumed closure (Fulfilled (before ++ item :: after)%list) w
       = getTypeCalled closure (getType item imageType) w) /\
  (forall closure err w,
     handlePaste_withBlob closure (Rejected err) w
       = setError
           (Some (if instanceofError err && (name err =? "NotAllowedError")
                  then "Zugriff auf die Zwischenablage wurde verweigert."
                  else "Fehler beim Einf端gen aus der Zwischenablage.")) w) /\
  (forall w n closure before item after imageType err,
     nth_error (pendingReads w) n = Some closure ->
     (forall other, In other before ->
        forall type, In type (types other) -> String.prefix "image/" type = false) ->
     find (fun type => String.prefix "image/" type) (types item) = Some imageType ->
     getType item imageType = Rejected err ->
     let asked := step w (ClipboardSettled n (Fulfilled (before ++ item :: after)%list)) in
     let w' := step asked (GetTypeSettled (length (pendingBlobs w))) in
     pendingBlobs asked = (pendingBlobs w ++ [(closure, Rejected err)])%list /\
     state asked = state w /\
     error (state w')
       = Some (if instanceofError err && (name err =? "NotAllowedError")
               then "Zugriff auf die Zwischenablage wurde verweigert."
               else "Fehler beim Einf端gen aus der Zwischenablage.") /\
     image (state w') = image (state w) /\
     stage (state w') = stage (state w) /\
     text (state w') = text (state w) /\
     inFlight w' = inFlight w /\
     objectURLs w' = objectURLs w /\
     pendingBlobs w' = pendingBlobs w) /\
  ("Fehler beim Einf端gen aus der Zwischenablage."
     <> "Die Zwischenablage-API wird von Ihrem Browser nicht unterst端tzt." /\
   "Fehler beim Einf端gen aus der Zwischenablage."
     <> "Zugriff auf die Zwischenablage wurde verweigert." /\
   "Fehler beim Einf端gen aus der Zwischenablage."
     <> "Kein Bild in der Zwischenablage gefunden.").
Proof.
  split; [|split; [|split; [|split]]].
  - intros closure err w Hother.
    unfold handlePaste_resumed, try_catch, bind, await, handlePaste_catch.
    now rewrite Hother.
  - intros closure before item after imageType w Hbefore Hfind.
    apply handlePaste_resumed_found. now apply findImageBlob_first.
  - apply handlePaste_withBlob_rejected.
  - intros w n closure before item after imageType err Hn Hbefore Hfind Hget asked w'.
    assert (Hasked : asked
              = render (exec (getTypeCalled closure (Rejected err))
                             (exec (setPendingReads (dropNth n (pendingReads w))) w))).
    { unfold asked, step. cbn [enabled]. rewrite Hn.
      rewrite (read_handled w n closure _ Hn). unfold exec at 1.
      rewrite (handlePaste_resumed_found closure _ (getType item imageType))
        by (now apply findImageBlob_first).
      now rewrite Hget. }
    assert (Hblobs : pendingBlobs asked
                     = (pendingBlobs w ++ [(closure, Rejected err)])%list)
      by (now rewrite Hasked).
    assert (Hk : nth_error (pendingBlobs asked) (length (pendingBlobs w))
                 = Some (closure, Rejected err))
      by (rewrite Hblobs; apply nth_error_last).
    assert (Hw' : w' = render (exec (setError
                     (Some (if instanceofError err && (name err =? "NotAllowedError")
                            then "Zugriff auf die Zwischenablage wurde verweigert."
                            else "Fehler beim Einf端gen aus der Zwischenablage.")))
                     (exec (setPendingBlobs (dropNth (length (pendingBlobs w))
                                                     (pendingBlobs asked))) asked))).
    { unfold w', step. cbn [enabled]. rewrite Hk.
      rewrite (blob_handled asked _ closure _ Hk). unfold exec at 1.
      now rewrite handlePaste_withBlob_rejected. }
    split; [exact Hblobs|]. split; [now rewrite Hasked|].
    rewrite Hw'. cbn. rewrite Hblobs, dropNth_last. rewrite Hasked.
    repeat split; reflexivity.
  - repeat split; discriminate.
Qed.

Lemma paste_other_failures_witness :
  handlePaste_resumed initialState (Rejected engineFailure) (mount withClipboard)
    = setError (Some "Fehler beim Einf端gen aus der Zwischenablage.")
        (mount withClipboard) /\
  handlePaste_resumed initialState
      (Fulfilled ([textItem]
                  ++ {| types := ["image/png"]; getType := fun _ => Rejected engineFailure |}
                  :: [screenshotItem])%list)
      (mount withClipboard)
    = getTypeCalled initialState (Rejected engineFailure) (mount withClipboard) /\
  error (state (step (step (step ready PasteClick)
                  (ClipboardSettled 0
                     (Fulfilled ([textItem]
                        ++ {| types := ["image/png"];
                              getType := fun _ => Rejected engineFailure |}
                        :: [screenshotItem])%list)))
                  (GetTypeSettled (length (pendingBlobs (step ready PasteClick))))))
    = Some "Fehler beim Einf端gen aus der Zwischenablage.".
Proof.
  split; [|split].
  - exact (proj1 paste_other_failures initialState engineFailure
             (mount withClipboard) eq_refl).
  - apply (proj1 (proj2 paste_other_failures) initialState [textItem]
             {| types := ["image/png"]; getType := fun _ => Rejected engineFailure |}
             [screenshotItem] "image/png" (mount withClipboard)).
    + intros other [<-|[]] type [<-|[]]. reflexivity.
    + reflexivity.
  - pose proof (proj1 (proj2 (proj2 (proj2 paste_other_failures)))
             (step ready PasteClick) 0 (state ready) [textItem]
             {| types := ["image/png"]; getType := fun _ => Rejected engineFailure |}
             [screenshotItem] "image/png" engineFailure eq_refl) as H.
    cbv zeta in H.
    assert (Hbefore : forall other, In other [textItem] ->
              forall type, In type (types other) -> String.prefix "image/" type = false)
      by (intros other [<-|[]] type [<-|[]]; reflexivity).
    specialize (H Hbefore eq_refl eq_refl).
    exact (proj1 (proj2 (proj2 H))).
Defined.

(** ** A recognition without text *)

Lemma step_stuck (w : World) (e : Event) : Stuck w -> Stuck (step w e).
Proof.
  intros Hk. unfold step. destruct (enabled w e) eqn:En; [|exact Hk].
  destruct Hk as [Hs Ht Hc Hr Hi].
  apply pastePending_false in Hr as (Hr & Hb).
  destruct w as [s wr ir urls nu cb ct tm pi prs pbs fl].
  destruct s as [im tx er sg pg rdy cbt].
  cbn in *. subst.
  destruct e; cbn in *; try discriminate.
  - constructor; reflexivity.
  - destruct n; discriminate.
  - destruct n; discriminate.
  - destruct n; discriminate.
  - destruct ct; [discriminate|]. constructor; reflexivity.
Qed.

Lemma run_stuck (events : list Event) :
  forall w, Stuck w -> Stuck (run w events).
Proof.
  induction events as [|e rest IH]; intros w Hk; [exact Hk|].
  apply IH. now apply step_stuck.
Qed.

(** X14. The acquisition buttons and the result view are never on the page
    together.  After a recognition that produced the empty string, in a run
    in which no upload or paste is started while a paste is pending,
    neither of them is: the stage is
    [done], so the buttons are hidden, and with an empty text the result
    view and its reset button are hidden too.  Nothing that can still
    happen changes this, and no action of the user is enabled any more. *)
Theorem empty_result_is_a_dead_end :
  (forall s : AppState,
     acquisitionButtons (page s) = None \/ resultView (page s) = None) /\
  (forall (nav : option Clipboard) (events later : list Event),
     oneAtATime (mount nav) events = true ->
     let w := run (mount nav) events in
     stage (state w) = done ->
     text (state w) = "" ->
     let w' := run w later in
     stage (state w') = done /\
     text (state w') = "" /\
     acquisitionButtons (page (state w')) = None /\
     resultView (page (state w')) = None /\
     (forall e, userEvent e = true -> enabled w' e = false)).
Proof.
  split.
  - intros s. unfold page, acquisitionShown. cbn.
    destruct (truthy (text s)); [left|right; reflexivity].
    now rewrite andb_false_r.
  - intros nav events later Hseq w Hdone Hblank w'.
    destruct (run_orderly events _ (mount_orderly nav) Hseq) as [_ Hf Hi Hr Hb _].
    fold w in Hf, Hi, Hr, Hb.
    assert (Hk : Stuck w).
    { constructor; try assumption.
      - destruct (inFlight w); [reflexivity|].
        destruct Hf as (_ & ? & _); [discriminate|congruence].
      - unfold pastePending.
        destruct (pendingReads w);
          [|destruct Hr as (? & _); [discriminate|congruence]].
        destruct (pendingBlobs w); [reflexivity|].
        destruct Hb as (? & _); [discriminate|congruence].
      - destruct (pendingInit w); [|reflexivity].
        destruct Hi as (? & _); [reflexivity|congruence]. }
    apply (run_stuck later) in Hk. fold w' in Hk.
    destruct Hk as [Hs Ht _ _ _].
    unfold page, acquisitionShown. cbn. rewrite Hs, Ht. cbn.
    repeat split.
    intros e He. destruct e; try discriminate; cbn;
      unfold acquisitionEnabled, acquisitionShown, resultShown;
      rewrite ?Hs, ?Ht; reflexivity.
Qed.

Lemma empty_result_is_a_dead_end_witness :
  let events := [InitSettled (Fulfilled 7) resolved resolved;
                 Upload false [photo];
                 RecognizeSettled 0 (recognized "")] in
  let later := [Logger initialized_api; ResetClick; Upload false [photo]; PasteClick] in
  oneAtATime (mount withClipboard) events = true /\
  stage (state (run (mount withClipboard) events)) = done /\
  text (state (run (mount withClipboard) events)) = "" /\
  stage (state (run (run (mount withClipboard) events) later)) = done.
Proof.
  cbv zeta. split; [reflexivity|]. split; [reflexivity|]. split; [reflexivity|].
  pose proof (proj2 empty_result_is_a_dead_end withClipboard
                [InitSettled (Fulfilled 7) resolved resolved;
                 Upload false [photo];
                 RecognizeSettled 0 (recognized "")]
                [Logger initialized_api; ResetClick; Upload false [photo]; PasteClick]
                eq_refl) as H.
  cbv zeta in H. specialize (H eq_refl eq_refl).
  destruct H as (H & _). exact H.
Defined.

(** ** The progress bar *)

Lemma replaceUnderscores_length (s : string) :
  String.length (replaceUnderscores s) = String.length s.
Proof. induction s as [|c rest IH]; cbn; [reflexivity|now rewrite IH]. Qed.

Lemma replaceUnderscores_get (s : string) :
  forall n,
    String.get n (replaceUnderscores s)
    = match String.get n s with
      | Some c => Some (if Ascii.eqb c "_"%char then " "%char else c)
      | None => None
      end.
Proof.
  induction s as [|c rest IH]; intros n; cbn; [reflexivity|].
  destruct n; [reflexivity|apply IH].
Qed.

Lemma get_some_lt (s : string) :
  forall n c, String.get n s = Some c -> n < String.length s.
Proof.
  induction s as [|a rest IH]; intros n c; cbn; [discriminate|].
  destruct n; [lia|]. intros H. apply IH in H. lia.
Qed.

Lemma get_none_ge (s : string) :
  forall n, String.get n s = None -> String.length s <= n.
Proof.
  induction s as [|a rest IH]; intros n; cbn; [lia|].
  destruct n; [discriminate|]. intros H. apply IH in H. lia.
Qed.

Lemma string_length_append (s1 s2 : string) :
  String.length (s1 ++ s2) = String.length s1 + String.length s2.
Proof. induction s1 as [|c rest IH]; cbn; [reflexivity|now rewrite IH]. Qed.

(** X15. The line under the progress bar is the status of the engine with
    every underscore turned into a space, all other characters kept in
    place, followed by three dots; no underscore of the status reaches the
    page. *)
Theorem progress_bar_text :
  forall (fraction : Q) (status : string),
    let line := barText (ProgressBar fraction status) in
    String.length line = String.length status + 3 /\
    (forall n c,
       String.get n status = Some c ->
       String.get n line = Some (if Ascii.eqb c "_"%char then " "%char else c)) /\
    (forall n, n < String.length status ->
               String.get n line <> Some "_"%char) /\
    (forall n, n < 3 ->
               String.get (String.length status + n) line = Some "."%char).
Proof.
  intros fraction status line. subst line. cbn.
  assert (Hget : forall n c,
             String.get n status = Some c ->
             String.get n (replaceUnderscores status ++ "...")
             = Some (if Ascii.eqb c "_"%char then " "%char else c)).
  { intros n c Hc.
    rewrite <- append_correct1.
    - now rewrite replaceUnderscores_get, Hc.
    - rewrite replaceUnderscores_length. now apply get_some_lt in Hc. }
  split; [|split; [exact Hget|split]].
  - now rewrite string_length_append, replaceUnderscores_length.
  - intros n Hn.
    destruct (String.get n status) as [c|] eqn:Hc.
    + rewrite (Hget n c Hc).
      destruct (Ascii.eqb c "_"%char) eqn:E; [discriminate|].
      intros [= ->]. now rewrite Ascii.eqb_refl in E.
    + apply get_none_ge in Hc. lia.
  - intros n Hn.
    rewrite <- (replaceUnderscores_length status), Nat.add_comm.
    rewrite <- append_correct2.
    destruct n as [|[|[|n]]]; try reflexivity. lia.
Qed.

Lemma progress_bar_text_witness :
  String.get 11 "recognizing_text" = Some "_"%char /\
  String.get 11 (barText (ProgressBar 1 "recognizing_text")) = Some " "%char /\
  barText (ProgressBar 1 "recognizing_text") = "recognizing text...".
Proof.
  split; [reflexivity|]. split; [|reflexivity].
  exact (proj1 (proj2 (progress_bar_text 1 "recognizing_text")) 11 "_"%char eq_refl).
Defined.


(** ** Reset, paste and upload as the page offers them *)

(** X16. A click on the reset button, whenever the page offers it, leaves
    the state a fresh component would have apart from the engine being
    ready and the label of the copy button: no image, no text, no error,
    stage [idle], progress at zero.  The URL that was displayed is revoked,
    the result view is gone and the acquisition buttons are back, enabled
    if the engine is ready, with a newly attached, empty file input.  In a
    run in which no upload or paste was started while a paste was pending
    no object URL is left registered. *)
Theorem reset_from_the_page :
  forall (nav : option Clipboard) (events : list Event),
    let w := run (mount nav) events in
    enabled w ResetClick = true ->
    let w' := step w ResetClick in
    state w' = {| image := None; text := ""; error := None; stage := idle;
                  progress := {| Progress.status := ""; Progress.progress := 0 |};
                  workerReady := workerReady (state w);
                  copyButtonText := copyButtonText (state w) |} /\
    inputRef w' = Some {| value := ""; capture := None |} /\
    (forall url, image (state w) = Some url -> ~ In url (objectURLs w')) /\
    acquisitionButtons (page (state w')) = Some (negb (workerReady (state w))) /\
    resultView (page (state w')) = None /\
    (oneAtATime (mount nav) events = true -> objectURLs w' = []).
Proof.
  intros nav events w En w'. subst w'.
  pose proof (run_wired events _ (mount_steady nav) (mount_wired nav)) as Hw.
  fold w in Hw. destruct Hw as [_ _ _ _ _ _ _ _ Hin].
  assert (Hurls : oneAtATime (mount nav) events = true ->
                  objectURLs w = match image (state w) with
                                 | Some url => [url]
                                 | None => []
                                 end).
  { intros Hseq. now destruct (run_orderly events _ (mount_orderly nav) Hseq). }
  unfold step. rewrite En. cbn in En.
  assert (Hhidden : acquisitionShown (state w) = false).
  { unfold acquisitionShown. unfold resultShown in En. rewrite En.
    now rewrite andb_false_r. }
  apply Hin in Hhidden.
  destruct w as [s wr ir urls nu cb ct tm pi prs pbs fl].
  destruct s as [im tx er sg pg rdy cbt].
  cbn in *. subst ir.
  destruct im as [url|]; cbn; repeat split; try reflexivity.
  - intros u [= ->]. apply remove_In.
  - unfold acquisitionDisabled, isProcessing. cbn. now rewrite orb_false_r.
  - intros Hseq. rewrite (Hurls Hseq). apply remove_single.
  - discriminate.
  - unfold acquisitionDisabled, isProcessing. cbn. now rewrite orb_false_r.
  - intros Hseq. now apply Hurls.
Qed.

Lemma reset_from_the_page_witness :
  let events := [InitSettled (Fulfilled 7) resolved resolved;
                 Upload false [photo];
                 RecognizeSettled 0 (recognized "Hallo Welt")] in
  enabled (run (mount withClipboard) events) ResetClick = true /\
  oneAtATime (mount withClipboard) events = true /\
  inputRef (run (mount withClipboard) events) = None /\
  inputRef (step (run (mount withClipboard) events) ResetClick)
    = Some {| value := ""; capture := None |} /\
  objectURLs (step (run (mount withClipboard) events) ResetClick) = [].
Proof.
  cbv zeta. split; [reflexivity|]. split; [reflexivity|]. split; [reflexivity|].
  pose proof (reset_from_the_page withClipboard
                [InitSettled (Fulfilled 7) resolved resolved;
                 Upload false [photo];
                 RecognizeSettled 0 (recognized "Hallo Welt")]) as H.
  cbv zeta in H. specialize (H eq_refl).
  destruct H as (_ & Hinput & _ & _ & _ & Hurls).
  split; [exact Hinput|exact (Hurls eq_refl)].
Defined.

(** X17. Where the clipboard can be read, a click on "Einfügen" only
    suspends [handlePaste] at the read: the state is what it was, no
    picture has been asked for, no recognition call is made, and the upload
    and paste buttons remain enabled while the read is pending. *)
Theorem paste_click_suspends :
  forall (w : World) (c : Clipboard),
    clipboard w = Some c -> hasRead c = true ->
    enabled w PasteClick = true ->
    let w' := step w PasteClick in
    state w' = state w /\
    pendingReads w' = (pendingReads w ++ [state w])%list /\
    pendingBlobs w' = pendingBlobs w /\
    inFlight w' = inFlight w /\
    objectURLs w' = objectURLs w /\
    enabled w' PasteClick = true /\
    (forall capture files, enabled w' (Upload capture files) = true).
Proof.
  intros w c Hc Hread En w'. subst w'. unfold step. rewrite En.
  destruct w as [s wr ir urls nu cb ct tm pi prs pbs fl].
  cbn in Hc. subst cb. cbn in En.
  unfold exec, handle, handlePaste, bind, getClipboard. cbn. rewrite Hread. cbn.
  repeat split; try exact En. intros capture files. exact En.
Qed.

Lemma paste_click_suspends_witness :
  let w := run (mount withClipboard) [InitSettled (Fulfilled 7) resolved resolved] in
  enabled w PasteClick = true /\
  enabled (step w PasteClick) (Upload false [photo]) = true.
Proof.
  cbv zeta. split; [reflexivity|].
  pose proof (paste_click_suspends
                (run (mount withClipboard) [InitSettled (Fulfilled 7) resolved resolved])
                {| hasRead := true; written := [] |} eq_refl eq_refl eq_refl) as H.
  cbv zeta in H. destruct H as (_ & _ & _ & _ & _ & _ & H).
  exact (H false [photo]).
Defined.

(** X18. An image chosen in the file picker is submitted as the newest
    recognition call, after those already in flight.  When nothing but
    progress messages of the engine come in before that call resolves with
    a text [t], the component ends in stage [done] with exactly [t] as the
    text, no error, and the object URL created for that image as the
    preview, still registered; the result view shows [t] if [t] is not
    empty. *)
Theorem upload_then_recognized :
  forall (nav : option Clipboard) (events : list Event)
         (capture : bool) (file : Blob) (files : list Blob)
         (messages : list Tesseract.LoggerMessage) (t : string),
    let w := run (mount nav) events in
    enabled w (Upload capture (file :: files)) = true ->
    let attempt := step w (Upload capture (file :: files)) in
    let during := run attempt (map Logger messages) in
    let w' := step during (RecognizeSettled (length (inFlight w)) (recognized t)) in
    (exists worker,
       workerRef w = Some worker /\
       inFlight attempt = (inFlight w ++ [(worker, file)])%list /\
       nth_error (inFlight during) (length (inFlight w)) = Some (worker, file)) /\
    stage (state w') = done /\
    text (state w') = t /\
    error (state w') = None /\
    image (state w') = Some (nextURL w) /\
    ~ In (nextURL w) (objectURLs w) /\
    In (nextURL w) (objectURLs w') /\
    resultView (page (state w'))
      = if truthy t then Some (t, copyButtonText (state w)) else None.
Proof.
  intros nav events capture file files messages t w En attempt during w'.
  destruct (run_steady events _ (mount_steady nav)) as [Hworker _ Hbelow _].
  fold w in Hworker, Hbelow.
  pose proof En as Hon. cbn in Hon.
  apply acquisitionEnabled_inv in Hon as (_ & _ & Hready).
  destruct (workerRef w) as [worker|] eqn:Href; [|now elim (Hworker Hready)].
  destruct (upload_step w capture file files worker En Href)
    as (He & _ & Hi & Hu & Hc & _ & Hl).
  fold attempt in He, Hi, Hu, Hc, Hl.
  assert (Hk : nth_error (inFlight attempt) (length (inFlight w))
               = Some (worker, file)) by (rewrite Hc; apply nth_error_last).
  destruct (own_call_settles attempt _ _ messages (recognized t) Hk)
    as (Hk' & Hi' & Hu' & _ & Hl' & Hs' & Ht' & He').
  fold during in Hk', Hi', Hu', Hl', Hs', Ht', He'.
  fold w' in Hi', Hu', Hl', Hs', Ht', He'.
  cbn in Ht'.
  split; [exists worker; repeat split; assumption|].
  repeat split.
  - exact Hs'.
  - exact Ht'.
  - congruence.
  - congruence.
  - intros Hin. apply Hbelow in Hin. lia.
  - now rewrite Hu'.
  - unfold page. cbn. now rewrite Ht', Hl', Hl.
Qed.

Lemma upload_then_recognized_witness :
  let w := run (mount withClipboard) [InitSettled (Fulfilled 7) resolved resolved] in
  let attempt := step w (Upload true [photo]) in
  let during := run attempt (map Logger [initialized_api]) in
  enabled w (Upload true [photo]) = true /\
  text (state (step during
                 (RecognizeSettled (length (inFlight w)) (recognized "Hallo Welt"))))
    = "Hallo Welt".
Proof.
  cbv zeta. split; [reflexivity|].
  pose proof (upload_then_recognized withClipboard
                [InitSettled (Fulfilled 7) resolved resolved]
                true photo [] [initialized_api] "Hallo Welt" eq_refl) as H.
  cbv zeta in H. destruct H as (_ & _ & H & _). exact H.
Defined.
